(** * twipper.premium: paginated search over the Twitter premium API

    A shallow embedding of [src/twipper/premium.py]: the two public
    operations [search_tweets] and [wrapper_premium_user_search], run
    against an explicit environment (the language collaborator and the
    HTTP server) in a small exception-and-trace monad. *)

From Stdlib Require Import ZArith List String Ascii Bool Lia.
From Stdlib Require Import DecimalString.
Import ListNotations.

Local Open Scope string_scope.
Local Open Scope list_scope.
Local Open Scope Z_scope.

(** ** Python values reaching the two functions

    The arguments are dynamically typed; the code inspects them with
    truthiness tests and [isinstance]. *)

Inductive pyval : Type :=
| PNone
| PBool (b : bool)
| PInt (z : Z)
| PStr (s : string)
| PClient                  (* an instance of oauth2.Client *)
| POther (truth : bool).   (* any other object, with its truth value *)

(** [bool(v)] *)
Definition truthy (v : pyval) : bool :=
  match v with
  | PNone => false
  | PBool b => b
  | PInt z => negb (z =? 0)
  | PStr s => negb (s =? "")%string
  | PClient => true
  | POther t => t
  end.

(** [isinstance(v, oauth2.Client)] *)
Definition isinstance_Client (v : pyval) : bool :=
  match v with PClient => true | _ => false end.

(** [isinstance(v, str)] *)
Definition isinstance_str (v : pyval) : bool :=
  match v with PStr _ => true | _ => false end.

(** [isinstance(v, int)]; [bool] is a subclass of [int]. *)
Definition isinstance_int (v : pyval) : bool :=
  match v with PInt _ | PBool _ => true | _ => false end.

(** [str(n)] for an integer. *)
Definition str (n : Z) : string := NilZero.string_of_int (Z.to_int n).

(** ** Exceptions *)

Inductive exn : Type :=
| ValueError (msg : string)
| TypeError (msg : string)
| RuntimeError (msg : string)
| ConnectionError (msg : string)
| IndexError (msg : string)
| JSONDecodeError (msg : string).

Inductive exn_kind : Type :=
  KValue | KType | KRuntime | KConnection | KIndex | KJSONDecode.

Definition kind (e : exn) : exn_kind :=
  match e with
  | ValueError _ => KValue
  | TypeError _ => KType
  | RuntimeError _ => KRuntime
  | ConnectionError _ => KConnection
  | IndexError _ => KIndex
  | JSONDecodeError _ => KJSONDecode
  end.

Inductive outcome (A : Type) : Type :=
| Return (a : A)
| Raise (e : exn).
Arguments Return {A} a.
Arguments Raise {A} e.

(** ** Requests, responses and the observable trace *)

(** The dict handed to [json.dumps]. *)
Record payload : Type := mk_payload {
  p_query : pyval;
  p_fromDate : pyval;
  p_toDate : pyval;
  p_maxResults : Z;
  p_next : option string
}.

(** One [requests.post(url, headers=headers, data=data)]. *)
Record request : Type := mk_request {
  url : string;
  Authorization : string;
  Content_Type : string;
  data : payload
}.

Inductive event : Type :=
| LanguageLookup (api : pyval)   (* available_languages(api) *)
| Post (r : request).            (* requests.post(...) *)

Definition is_post (e : event) : bool :=
  match e with Post _ => true | LanguageLookup _ => false end.

Definition is_lookup (e : event) : bool :=
  match e with LanguageLookup _ => true | Post _ => false end.

(** Number of search requests in a trace. *)
Definition posts (tr : list event) : nat := List.length (filter is_post tr).

(** Number of language lookups in a trace. *)
Definition lookups (tr : list event) : nat := List.length (filter is_lookup tr).

(** ** The monad: exceptions over a trace of external calls *)

Definition M (A : Type) : Type := list event -> outcome A * list event.

Definition ret {A} (a : A) : M A := fun tr => (Return a, tr).

Definition raise {A} (e : exn) : M A := fun tr => (Raise e, tr).

Definition bind {A B} (c : M A) (k : A -> M B) : M B :=
  fun tr =>
    match c tr with
    | (Return a, tr') => k a tr'
    | (Raise e, tr') => (Raise e, tr')
    end.

Notation "x <- c ;; k" := (bind c (fun x => k))
  (at level 61, c at next level, right associativity).
Notation "c ;;; k" := (bind c (fun _ => k))
  (at level 61, right associativity).

(** [if c: raise e] *)
Definition raise_if (c : bool) (e : exn) : M unit :=
  if c then raise e else ret tt.

(** [try: c  except <caught>: h] *)
Definition try_except {A} (c : M A) (caught : exn -> bool) (h : M A) : M A :=
  fun tr =>
    match c tr with
    | (Return a, tr') => (Return a, tr')
    | (Raise e, tr') => if caught e then h tr' else (Raise e, tr')
    end.

(** ['literal' + v]: defined on strings only. *)
Definition str_add (a : string) (v : pyval) : M string :=
  match v with
  | PStr s => ret (a ++ s)%string
  | _ => raise (TypeError "can only concatenate str to str")
  end.

(** [v += 'text'] on a value that must be a string. *)
Definition iadd_str (v : pyval) (b : string) : M pyval :=
  match v with
  | PStr s => ret (PStr (s ++ b)%string)
  | _ => raise (TypeError "unsupported operand type(s) for +=")
  end.

(** [v - 1] on an [int] (or [bool]). *)
Definition sub1 (v : pyval) : M Z :=
  match v with
  | PInt z => ret (z - 1)
  | PBool b => ret ((if b then 1 else 0) - 1)
  | _ => raise (TypeError "unsupported operand type(s) for -")
  end.

(** [v in languages] for a list of strings. *)
Definition py_in (v : pyval) (languages : list string) : bool :=
  match v with
  | PStr s => existsb (String.eqb s) languages
  | _ => false
  end.

Definition caught_ValueError (e : exn) : bool :=
  match e with ValueError _ => true | _ => false end.

(** [except (ConnectionError, json.decoder.JSONDecodeError, IndexError)] *)
Definition caught_lookup (e : exn) : bool :=
  match e with
  | ConnectionError _ | JSONDecodeError _ | IndexError _ => true
  | _ => false
  end.

(** The blanks that the line continuation leaves inside the ConnectionError
    message: line 121 is indented by eight columns, line 283 by twelve. *)
Definition search_gap : string := "        ".
Definition wrapper_gap : string := "            ".

(** [needle] occurs in [s]. *)
Fixpoint contains (needle s : string) : bool :=
  prefix needle s
  || match s with
     | EmptyString => false
     | String _ s' => contains needle s'
     end.

Section Premium.

(** Tweet records are opaque JSON objects. *)
Variable tweet : Type.

(** The decoded body of a response: a JSON object with an optional
    [results] array and an optional [next] token. *)
Record body : Type := mk_body {
  results : option (list tweet);
  next : option string
}.

Record response : Type := mk_response {
  status_code : Z;
  json : body
}.

(** [datetime.datetime.strptime(s, '%Y%m%d%H%M')]: [None] stands for its
    ValueError; instants are totally ordered, here minutes on a line. *)
Variable strptime : string -> option Z.

(** The collaborator [twipper.utils.available_languages]. *)
Variable available_languages : pyval -> outcome (list string).

(** The server: its answer to the [i]-th search request of a call. *)
Variable server : nat -> request -> response.

Definition call_strptime (v : pyval) : M Z :=
  match v with
  | PStr s =>
      match strptime s with
      | Some d => ret d
      | None => raise (ValueError "time data does not match format")
      end
  | _ => raise (TypeError "strptime() argument 1 must be str")
  end.

Definition call_available_languages (api : pyval) : M (list string) :=
  fun tr => (available_languages api, tr ++ [LanguageLookup api]).

Definition requests_post (r : request) : M response :=
  fun tr => (Return (server (posts tr) r), tr ++ [Post r]).

(** Lines 106-115 and 139-149 (268-277, 301-311): the request of one page;
    a continuation page carries the token of the page before it. *)
Definition page_request (url_ auth : string) (query from_date to_date : pyval)
    (next_page : option string) : request :=
  mk_request url_ auth "application/json"
    (mk_payload query from_date to_date 100 next_page).

(** The [for _ in range(page_count - 1)] loop, lines 138-164 and 300-326
    (the same text): [n] iterations remain; returns [tweets] as the loop
    leaves it. *)
Fixpoint continuation_loop (url_ auth : string) (query from_date to_date : pyval)
    (n : nat) (next_page : string) (tweets : list tweet) : M (list tweet) :=
  match n with
  | O => ret tweets
  | S n' =>
      response_ <- requests_post
                     (page_request url_ auth query from_date to_date (Some next_page)) ;;
      if negb (status_code response_ =? 200) then ret tweets
      else
        let result := json response_ in
        match results result with
        | None => ret tweets
        | Some r =>
            let tweets := tweets ++ r in
            match next result with
            | Some next_page => continuation_loop url_ auth query from_date to_date
                                  n' next_page tweets
            | None => ret tweets
            end
        end
  end.

(** Lines 106-169 and 268-331: the first request, the loop and the final
    test.  The two copies differ only in the run of blanks that the line
    continuation leaves inside the ConnectionError message, [gap]. *)
Definition paginate (gap : string) (url_ auth : string)
    (query from_date to_date page_count : pyval) : M (list tweet) :=
  response_ <- requests_post
                 (page_request url_ auth query from_date to_date None) ;;
  let tweets := @nil tweet in
  raise_if (negb (status_code response_ =? 200))
    (ConnectionError
       ("connection to api.twitter could not be established, with error "
          ++ gap ++ "code " ++ str (status_code response_))%string) ;;;
  let result := json response_ in
  tweets <- match results result with
            | Some r => ret (tweets ++ r)
            | None => raise (IndexError "no tweets could be retrieved.")
            end ;;
  match next result with
  | None =>
      if (0 <? List.length tweets)%nat then ret tweets
      else raise (IndexError " no tweets could be retrieved.")
  | Some next_page =>
      n <- sub1 page_count ;;
      tweets <- continuation_loop url_ auth query from_date to_date
                  (Z.to_nat n) next_page tweets ;;
      if (0 <? List.length tweets)%nat then ret tweets
      else raise (IndexError "no tweets could be retrieved.")
  end.

(** Lines 60-61 and 220-221. *)
Definition check_page_count (page_count : pyval) : M unit :=
  raise_if (negb (truthy page_count) || negb (isinstance_int page_count))
    (ValueError "page_count must be an `int`!").

(** Lines 95-104 and 257-266 (the same text): the lookup of the supported
    languages and the clause appended to the query. *)
Definition language_filter (api query language : pyval) : M pyval :=
  languages <- try_except (call_available_languages api) caught_lookup
                 (raise (RuntimeError "`available_languages` function failed.")) ;;
  if truthy language then
    if py_in language languages then
      clause <- str_add " lang:" language ;;
      iadd_str query clause
    else raise (ValueError "the introduced language does not exist.")
  else ret query.

Definition search_tweets
    (api oauth_token plan label query page_count from_date to_date language : pyval)
    : M (list tweet) :=
  raise_if (negb (truthy api) || negb (isinstance_Client api))
    (ValueError "specified api is not valid!") ;;;
  raise_if (negb (truthy oauth_token) || negb (isinstance_str oauth_token))
    (ValueError "oauth_token is not valid!") ;;;
  raise_if (negb (truthy plan) || negb (isinstance_str plan))
    (ValueError "plan must be a `str`!") ;;;
  raise_if (negb (truthy label) || negb (isinstance_str label))
    (ValueError "label must be a `str`!") ;;;
  raise_if (negb (truthy query) || negb (isinstance_str query))
    (ValueError "query must be a `str`") ;;;
  check_page_count page_count ;;;
  raise_if (negb (truthy from_date) || negb (isinstance_str from_date))
    (ValueError "from_date must be a `bool`!") ;;;
  try_except (call_strptime from_date ;;; ret tt) caught_ValueError
    (raise (ValueError "incorrect date format, it should be `yyyymmddhhmm`")) ;;;
  raise_if (negb (truthy to_date) || negb (isinstance_str to_date))
    (ValueError "to_date must be a `bool`!") ;;;
  try_except (call_strptime to_date ;;; ret tt) caught_ValueError
    (raise (ValueError "incorrect date format, it should be `yyyymmddhhmm`")) ;;;
  raise_if (truthy language && negb (isinstance_str language))
    (ValueError "language must be a `str`!") ;;;
  start_date <- call_strptime from_date ;;
  end_date <- call_strptime to_date ;;
  raise_if (start_date >=? end_date)
    (ValueError "incorrect dates, as from_date should be earlier than to_date.") ;;;
  u <- str_add "https://api.twitter.com/1.1/tweets/search/" plan ;;
  u <- str_add (u ++ "/")%string label ;;
  let url_ := (u ++ ".json")%string in
  auth <- str_add "Bearer " oauth_token ;;
  query <- language_filter api query language ;;
  paginate search_gap url_ auth query from_date to_date page_count.

Definition wrapper_premium_user_search
    (api oauth_token plan label screen_name page_count from_date to_date language : pyval)
    : M (list tweet) :=
  raise_if (negb (truthy api) || negb (isinstance_Client api))
    (ValueError "specified api is not valid!") ;;;
  raise_if (negb (truthy oauth_token) || negb (isinstance_str oauth_token))
    (ValueError "oauth_token is not valid!") ;;;
  raise_if (negb (truthy plan) || negb (isinstance_str plan))
    (ValueError "plan must be a `str`!") ;;;
  raise_if (negb (truthy label) || negb (isinstance_str label))
    (ValueError "label must be a `str`!") ;;;
  raise_if (negb (truthy screen_name) || negb (isinstance_str screen_name))
    (ValueError "screen_name must be a `str`") ;;;
  check_page_count page_count ;;;
  raise_if (negb (truthy from_date) || negb (isinstance_str from_date))
    (ValueError "from_date must be a `bool`!") ;;;
  try_except (call_strptime from_date ;;; ret tt) caught_ValueError
    (raise (ValueError "incorrect date format, it should be `yyyymmddhhmm`")) ;;;
  raise_if (negb (truthy to_date) || negb (isinstance_str to_date))
    (ValueError "to_date must be a `bool`!") ;;;
  try_except (call_strptime to_date ;;; ret tt) caught_ValueError
    (raise (ValueError "incorrect date format, it should be `yyyymmddhhmm`")) ;;;
  raise_if (truthy language && negb (isinstance_str language))
    (ValueError "language must be a `str`!") ;;;
  start_date <- call_strptime from_date ;;
  end_date <- call_strptime to_date ;;
  raise_if (start_date >=? end_date)
    (ValueError "incorrect dates, as from_date should be earlier than to_date.") ;;;
  u <- str_add "https://api.twitter.com/1.1/tweets/search/" plan ;;
  u <- str_add (u ++ "/")%string label ;;
  let url_ := (u ++ ".json")%string in
  query <- str_add "from:" screen_name ;;
  let query := PStr query in
  auth <- str_add "Bearer " oauth_token ;;
  query <- language_filter api query language ;;
  paginate wrapper_gap url_ auth query from_date to_date page_count.

(** ** Reading the checks and the request as predicates

    The definitions below name what the code above does on arguments in
    good order; the lemmas of the second part relate them to the code. *)

Definition text (v : pyval) : string :=
  match v with PStr s => s | _ => "" end.

Definition int_of (v : pyval) : Z :=
  match v with
  | PInt z => z
  | PBool b => if b then 1 else 0
  | _ => 0
  end.

Definition parses (v : pyval) : bool :=
  match v with
  | PStr s => match strptime s with Some _ => true | None => false end
  | _ => false
  end.

(** [start_date < end_date] for two dates that parse. *)
Definition earlier (from_date to_date : pyval) : bool :=
  match from_date, to_date with
  | PStr f, PStr t =>
      match strptime f, strptime t with
      | Some a, Some b => a <? b
      | _, _ => false
      end
  | _, _ => false
  end.

(** No check of lines 45-86 (205-246) raises; [subject] is the query of
    [search_tweets] and the screen name of [wrapper_premium_user_search]. *)
Definition checks_pass
    (api oauth_token plan label subject page_count from_date to_date language : pyval)
    : bool :=
  (truthy api && isinstance_Client api)
  && (truthy oauth_token && isinstance_str oauth_token)
  && (truthy plan && isinstance_str plan)
  && (truthy label && isinstance_str label)
  && (truthy subject && isinstance_str subject)
  && (truthy page_count && isinstance_int page_count)
  && (truthy from_date && isinstance_str from_date)
  && parses from_date
  && (truthy to_date && isinstance_str to_date)
  && parses to_date
  && negb (truthy language && negb (isinstance_str language))
  && earlier from_date to_date.

(** Line 88 (248). *)
Definition search_url (plan label : pyval) : string :=
  ((("https://api.twitter.com/1.1/tweets/search/" ++ text plan) ++ "/")
     ++ text label) ++ ".json".

(** Line 91 (253). *)
Definition bearer (oauth_token : pyval) : string :=
  "Bearer " ++ text oauth_token.

(** The language check of lines 100-104 does not raise. *)
Definition accepted (language : pyval) (languages : list string) : bool :=
  negb (truthy language) || py_in language languages.

(** The query as sent: with the clause of line 102 when a language is given. *)
Definition sent_query (query language : pyval) : pyval :=
  if truthy language then PStr (text query ++ (" lang:" ++ text language))
  else query.

(** Line 250: the query of the author search. *)
Definition author_query (screen_name : pyval) : pyval :=
  PStr ("from:" ++ text screen_name).

(** The requests of one call on arguments that pass the checks, by the
    token they carry. *)
Definition search_request (oauth_token plan label query from_date to_date language
                             : pyval) : option string -> request :=
  page_request (search_url plan label) (bearer oauth_token)
    (sent_query query language) from_date to_date.

(** Specification 4.4, FOLLOWING, in the specification's words: starting from
    a continuation token, up to [n] further pages are requested, the [i]-th
    request of the call first; a page with a non-success status or without a
    results field ends the walk, a page without a token is the last one.
    Returns the items of these pages in order and the requests made. *)
Fixpoint continuation_pages (req : option string -> request) (n i : nat)
    (next_page : string) : list tweet * list request :=
  match n with
  | O => ([], [])
  | S n' =>
      let r := req (Some next_page) in
      let page := server i r in
      if status_code page =? 200 then
        match results (json page) with
        | Some items =>
            match next (json page) with
            | Some token =>
                let rest := continuation_pages req n' (S i) token in
                (items ++ fst rest, r :: snd rest)
            | None => (items, [r])
            end
        | None => ([], [r])
        end
      else ([], [r])
  end.

(** Specification 3, AggregatedResult: the items of the first page followed
    by those of the continuation pages, in the order the pages were fetched,
    for a budget of [page_count] pages. *)
Definition aggregate (req : option string -> request) (page_count : pyval)
    : list tweet :=
  let first := server 0 (req None) in
  match results (json first) with
  | Some items =>
      match next (json first) with
      | Some token =>
          items ++ fst (continuation_pages req (Z.to_nat (int_of page_count - 1))
                          1 token)
      | None => items
      end
  | None => []
  end.

(** Specification 4.5, Result Finalizer: the aggregate when it has an item,
    the "no tweets" error otherwise. *)
Definition finalize (msg : string) (tweets : list tweet) : outcome (list tweet) :=
  match tweets with
  | [] => Raise (IndexError msg)
  | _ :: _ => Return tweets
  end.

(** Two runs agree: the same returned list, or errors of the same kind. *)
Definition same_behaviour (x y : outcome (list tweet)) : Prop :=
  match x, y with
  | Return a, Return b => a = b
  | Raise e1, Raise e2 => kind e1 = kind e2
  | _, _ => False
  end.

End Premium.

Arguments same_behaviour {tweet} x y.
Arguments finalize {tweet} msg tweets.
Arguments results {tweet} b.
Arguments next {tweet} b.
Arguments mk_body {tweet} results next.
Arguments status_code {tweet} r.
Arguments json {tweet} r.
Arguments mk_response {tweet} status_code json.

(** ** A concrete environment for worked examples *)

Definition digit (c : ascii) : option Z :=
  let n := Z.of_nat (nat_of_ascii c) in
  if (48 <=? n) && (n <=? 57) then Some (n - 48) else None.

Fixpoint number (s : string) (acc : Z) : option Z :=
  match s with
  | EmptyString => Some acc
  | String c s' =>
      match digit c with
      | Some d => number s' (acc * 10 + d)
      | None => None
      end
  end.

Definition days_in_month (y m : Z) : Z :=
  if m =? 2 then
    if ((y mod 4 =? 0) && negb (y mod 100 =? 0)) || (y mod 400 =? 0) then 29 else 28
  else if (m =? 4) || (m =? 6) || (m =? 9) || (m =? 11) then 30 else 31.

(** The twelve-digit reading of ['%Y%m%d%H%M']: an instant is numbered by
    its digits, which orders instants as the calendar does. *)
Definition strptime12 (s : string) : option Z :=
  if (String.length s =? 12)%nat then
    match number (substring 0 4 s) 0, number (substring 4 2 s) 0,
          number (substring 6 2 s) 0, number (substring 8 2 s) 0,
          number (substring 10 2 s) 0 with
    | Some y, Some m, Some d, Some h, Some mi =>
        if (1 <=? y) && (1 <=? m) && (m <=? 12) && (1 <=? d)
           && (d <=? days_in_month y m) && (h <=? 23) && (mi <=? 59)
        then Some ((((y * 100 + m) * 100 + d) * 100 + h) * 100 + mi)
        else None
    | _, _, _, _, _ => None
    end
  else None.

(** A collaborator that knows three languages. *)
Definition three_languages (api : pyval) : outcome (list string) :=
  Return ["en"; "es"; "fr"]%string.

(** A collaborator whose request fails. *)
Definition languages_down (api : pyval) : outcome (list string) :=
  Raise (ConnectionError "connection error").

(** A server with three pages of two tweets each (tweets are numbers),
    and nothing but errors after them. *)
Definition three_pages (i : nat) (r : request) : response nat :=
  match i with
  | 0%nat => mk_response 200 (mk_body (Some [1; 2]%nat) (Some "t1"%string))
  | 1%nat => mk_response 200 (mk_body (Some [3; 4]%nat) (Some "t2"%string))
  | 2%nat => mk_response 200 (mk_body (Some [5; 6]%nat) None)
  | _ => mk_response 503 (mk_body None None)
  end.

(** A server whose first page is good and which fails afterwards. *)
Definition one_page_then_down (i : nat) (r : request) : response nat :=
  match i with
  | 0%nat => mk_response 200 (mk_body (Some [1; 2]%nat) (Some "t1"%string))
  | _ => mk_response 500 (mk_body None None)
  end.

(** A server that is down. *)
Definition always_down (i : nat) (r : request) : response nat :=
  mk_response 503 (mk_body None None).

(** A server with three pages of a hundred tweets each. *)
Definition hundred_pages (i : nat) (r : request) : response nat :=
  match i with
  | 0%nat => mk_response 200 (mk_body (Some (seq 1 100)) (Some "t1"%string))
  | 1%nat => mk_response 200 (mk_body (Some (seq 101 100)) (Some "t2"%string))
  | 2%nat => mk_response 200 (mk_body (Some (seq 201 100)) None)
  | _ => mk_response 404 (mk_body None None)
  end.

(** A server whose every page is empty and carries a token. *)
Definition empty_pages (i : nat) (r : request) : response nat :=
  mk_response 200 (mk_body (Some []) (Some "more"%string)).

Definition d2019 : pyval := PStr "201901010000".
Definition d2020 : pyval := PStr "202001010000".

(** ** The order of the requests of one call *)

Section Chain.

Variable tweet : Type.
Variable server : nat -> request -> response tweet.

(** The requests [rs] follow the [i]-th request [prev] of a call: each one
    is sent because the answer to the one before it had status 200, a
    results field and a token, and it carries that token. *)
Fixpoint follows (req : option string -> request) (i : nat) (prev : request)
    (rs : list request) : Prop :=
  match rs with
  | [] => True
  | r :: rs' =>
      (exists token,
          status_code (server i prev) = 200
          /\ results (json (server i prev)) <> None
          /\ next (json (server i prev)) = Some token
          /\ r = req (Some token))
      /\ follows req (S i) r rs'
  end.

End Chain.

(** A server that never runs out of pages: one tweet and a token each time. *)
Definition endless_pages (i : nat) (r : request) : response nat :=
  mk_response 200 (mk_body (Some [i]) (Some "more"%string)).

(** A first page that has a token and no results field. *)
Definition no_results (i : nat) (r : request) : response nat :=
  mk_response 200 (mk_body None (Some "t1"%string)).

(** A good first page, then a page with status 200 and no results field. *)
Definition second_page_bare (i : nat) (r : request) : response nat :=
  match i with
  | 0%nat => mk_response 200 (mk_body (Some [1; 2]%nat) (Some "t1"%string))
  | _ => mk_response 200 (mk_body None (Some "t2"%string))
  end.

(** A collaborator that fails outside the kinds the code catches. *)
Definition languages_broken (api : pyval) : outcome (list string) :=
  Raise (TypeError "unexpected").

(** * Properties *)

Section Properties.

Variable tweet : Type.
Variable strptime : string -> option Z.
Variable available_languages : pyval -> outcome (list string).
Variable server : nat -> request -> response tweet.

Abbreviation search := (search_tweets tweet strptime available_languages server).
Abbreviation by_author :=
  (wrapper_premium_user_search tweet strptime available_languages server).
Abbreviation passes := (checks_pass strptime).
Abbreviation fetch := (paginate tweet server).
Abbreviation filter_language := (language_filter available_languages).


(** ** The trace *)

Lemma posts_app (tr tr' : list event) : posts (tr ++ tr') = (posts tr + posts tr')%nat.
Proof. unfold posts. now rewrite filter_app, length_app. Qed.

Lemma posts_snoc_post (tr : list event) (r : request) :
  posts (tr ++ [Post r]) = S (posts tr).
Proof. rewrite posts_app. cbn. lia. Qed.

Lemma posts_snoc_lookup (tr : list event) (api : pyval) :
  posts (tr ++ [LanguageLookup api]) = posts tr.
Proof. rewrite posts_app. cbn. lia. Qed.

Lemma posts_map_Post (rs : list request) : posts (map Post rs) = List.length rs.
Proof.
  unfold posts. induction rs as [|r rs IH]; cbn; [reflexivity | now rewrite IH].
Qed.

(** ** The argument checks *)

Ltac crunch :=
  cbn;
  repeat (match goal with
          | H : strptime _ = _ |- _ => rewrite H
          | H : (_ <? _) = _ |- _ =>
              first [ rewrite H | rewrite Z.geb_leb, Z.leb_antisym, H ]
          end; cbn);
  rewrite ?andb_false_r, ?orb_true_r; cbn.

Ltac rejected :=
  left; split;
  [ crunch; reflexivity
  | eexists; unfold bind, raise_if, try_except; crunch; reflexivity ].

Ltac proceeds :=
  right; split;
  [ crunch; reflexivity
  | unfold bind, raise_if, try_except; crunch; reflexivity ].

(** Either a check fails, and the call raises a ValueError before any
    external call, or the call is the language filter followed by the
    paginated fetch. *)
Lemma search_tweets_checks
    (api oauth_token plan label query page_count from_date to_date language : pyval)
    (tr : list event) :
  (passes api oauth_token plan label query page_count from_date to_date language
   = false
   /\ exists msg,
       search api oauth_token plan label query page_count from_date to_date
         language tr = (Raise (ValueError msg), tr))
  \/ (passes api oauth_token plan label query page_count from_date to_date language
      = true
      /\ search api oauth_token plan label query page_count from_date to_date
           language tr
         = (q <- filter_language api query language ;;
            fetch search_gap (search_url plan label) (bearer oauth_token) q
              from_date to_date page_count) tr).
Proof.
  unfold search_tweets, checks_pass, check_page_count.
  destruct api as [|[]|[]| | |[]]; try rejected.
  destruct oauth_token as [|[]|[]|[|c0 tok]| |[]]; try rejected.
  destruct plan as [|[]|[]|[|c1 pl]| |[]]; try rejected.
  destruct label as [|[]|[]|[|c2 lb]| |[]]; try rejected.
  destruct query as [|[]|[]|[|c3 q]| |[]]; try rejected.
  destruct page_count as [|[]|[]| | |[]]; try rejected.
  all: destruct from_date as [|[]|[]|[|c4 f]| |[]]; try rejected.
  all: destruct (strptime (String c4 f)) as [a|] eqn:Ef; try rejected.
  all: destruct to_date as [|[]|[]|[|c5 t]| |[]]; try rejected.
  all: destruct (strptime (String c5 t)) as [b|] eqn:Et; try rejected.
  all: destruct language as [|[]|[]|l| |[]]; try rejected.
  all: destruct (a <? b) eqn:Eab; try rejected.
  all: proceeds.
Qed.

Lemma wrapper_checks
    (api oauth_token plan label screen_name page_count from_date to_date language
       : pyval)
    (tr : list event) :
  (passes api oauth_token plan label screen_name page_count from_date to_date
     language = false
   /\ exists msg,
       by_author api oauth_token plan label screen_name page_count from_date
         to_date language tr = (Raise (ValueError msg), tr))
  \/ (passes api oauth_token plan label screen_name page_count from_date to_date
        language = true
      /\ by_author api oauth_token plan label screen_name page_count from_date
           to_date language tr
         = (q <- filter_language api (PStr ("from:" ++ text screen_name)) language ;;
            fetch wrapper_gap (search_url plan label) (bearer oauth_token) q
              from_date to_date page_count) tr).
Proof.
  unfold wrapper_premium_user_search, checks_pass, check_page_count.
  destruct api as [|[]|[]| | |[]]; try rejected.
  destruct oauth_token as [|[]|[]|[|c0 tok]| |[]]; try rejected.
  destruct plan as [|[]|[]|[|c1 pl]| |[]]; try rejected.
  destruct label as [|[]|[]|[|c2 lb]| |[]]; try rejected.
  destruct screen_name as [|[]|[]|[|c3 q]| |[]]; try rejected.
  destruct page_count as [|[]|[]| | |[]]; try rejected.
  all: destruct from_date as [|[]|[]|[|c4 f]| |[]]; try rejected.
  all: destruct (strptime (String c4 f)) as [a|] eqn:Ef; try rejected.
  all: destruct to_date as [|[]|[]|[|c5 t]| |[]]; try rejected.
  all: destruct (strptime (String c5 t)) as [b|] eqn:Et; try rejected.
  all: destruct language as [|[]|[]|l| |[]]; try rejected.
  all: destruct (a <? b) eqn:Eab; try rejected.
  all: proceeds.
Qed.

(** What passing the checks says of the single arguments. *)
Lemma passes_inv
    (api oauth_token plan label subject page_count from_date to_date language
       : pyval) :
  passes api oauth_token plan label subject page_count from_date to_date language
  = true ->
  (exists s, subject = PStr s /\ s <> "")
  /\ truthy page_count = true /\ isinstance_int page_count = true
  /\ (truthy language = true -> exists l, language = PStr l)
  /\ earlier strptime from_date to_date = true.
Proof.
  unfold checks_pass. intros H.
  repeat (apply andb_prop in H; destruct H as [H ?]).
  repeat match goal with
         | H : _ && _ = true |- _ => apply andb_prop in H; destruct H
         end.
  split; [|split; [|split; [|split]]]; try assumption.
  - destruct subject as [| | |s| |]; try discriminate.
    exists s. split; [reflexivity|]. intros ->. discriminate.
  - intros Hl.
    match goal with
    | H' : negb (truthy language && _) = true |- _ => rename H' into Hlang
    end.
    rewrite Hl in Hlang.
    destruct language as [| | |l| |]; try discriminate. now exists l.
Qed.

(** ** The language filter *)

Lemma filter_language_trace (api query language : pyval) (tr : list event) :
  snd (filter_language api query language tr) = tr ++ [LanguageLookup api].
Proof.
  unfold language_filter, bind, try_except, call_available_languages.
  destruct (available_languages api) as [langs|e].
  - destruct (truthy language); [|reflexivity].
    destruct (py_in language langs); [|reflexivity].
    destruct language; cbn; try reflexivity. destruct query; reflexivity.
  - destruct (caught_lookup e); reflexivity.
Qed.

Lemma filter_language_fails (api query language : pyval) (e : exn)
    (tr : list event) :
  available_languages api = Raise e ->
  filter_language api query language tr
  = (Raise (if caught_lookup e
            then RuntimeError "`available_languages` function failed."
            else e),
     tr ++ [LanguageLookup api]).
Proof.
  intros E. unfold language_filter, bind, try_except, call_available_languages.
  rewrite E. destruct (caught_lookup e); reflexivity.
Qed.

Lemma filter_language_rejects (api query language : pyval)
    (langs : list string) (tr : list event) :
  available_languages api = Return langs ->
  truthy language = true ->
  py_in language langs = false ->
  filter_language api query language tr
  = (Raise (ValueError "the introduced language does not exist."),
     tr ++ [LanguageLookup api]).
Proof.
  intros E Hl Hin. unfold language_filter, bind, try_except, call_available_languages.
  now rewrite E, Hl, Hin.
Qed.

Lemma filter_language_returns (api : pyval) (s : string) (language : pyval)
    (langs : list string) (tr : list event) :
  available_languages api = Return langs ->
  (truthy language = true -> exists l, language = PStr l) ->
  accepted language langs = true ->
  filter_language api (PStr s) language tr
  = (Return (sent_query (PStr s) language), tr ++ [LanguageLookup api]).
Proof.
  intros E Hstr Hacc.
  unfold language_filter, bind, try_except, call_available_languages, sent_query,
    accepted in *.
  rewrite E. destruct (truthy language) eqn:Hl; [|reflexivity].
  cbn in Hacc. rewrite Hacc. destruct (Hstr eq_refl) as [l ->]. reflexivity.
Qed.

(** ** The continuation loop and the paginated fetch *)

(** The loop of the code fetches the pages of the specification: it never
    raises, appends their items to [tweets] and issues their requests. *)
Lemma continuation_loop_pages (url_ auth : string) (query from_date to_date : pyval)
    (n : nat) :
  forall (next_page : string) (tweets : list tweet) (tr : list event),
    continuation_loop tweet server url_ auth query from_date to_date n next_page
      tweets tr
    = (Return (tweets
                 ++ fst (continuation_pages tweet server
                           (page_request url_ auth query from_date to_date)
                           n (posts tr) next_page)),
       tr ++ map Post
               (snd (continuation_pages tweet server
                       (page_request url_ auth query from_date to_date)
                       n (posts tr) next_page))).
Proof.
  induction n as [|n IH]; intros next_page tweets tr.
  - cbn. unfold ret. now rewrite !app_nil_r.
  - cbn [continuation_loop continuation_pages]. unfold bind, requests_post.
    destruct (status_code (server (posts tr) _) =? 200); cbn;
      [|unfold ret; now rewrite app_nil_r].
    destruct (results (json (server (posts tr) _))) as [items|]; cbn;
      [|unfold ret; now rewrite app_nil_r].
    destruct (next (json (server (posts tr) _))) as [token|]; cbn;
      [|reflexivity].
    rewrite IH, posts_snoc_post, <- !app_assoc. reflexivity.
Qed.

Lemma finalize_test (msg : string) (tweets : list tweet) (tr : list event) :
  (if (0 <? List.length tweets)%nat then ret tweets else raise (IndexError msg)) tr
  = (finalize msg tweets, tr).
Proof. destruct tweets; reflexivity. Qed.

(** The paginated fetch, case by case on the answer to the first request. *)
Lemma paginate_cases (gap url_ auth : string)
    (query from_date to_date page_count : pyval) (tr : list event) :
  isinstance_int page_count = true ->
  let req := page_request url_ auth query from_date to_date in
  let first := server (posts tr) (req None) in
  fetch gap url_ auth query from_date to_date page_count tr
  = if status_code first =? 200 then
      match results (json first) with
      | None =>
          (Raise (IndexError "no tweets could be retrieved."),
           tr ++ [Post (req None)])
      | Some items =>
          match next (json first) with
          | None =>
              (finalize " no tweets could be retrieved." items,
               tr ++ [Post (req None)])
          | Some token =>
              let rest :=
                continuation_pages tweet server req
                  (Z.to_nat (int_of page_count - 1)) (S (posts tr)) token in
              (finalize "no tweets could be retrieved." (items ++ fst rest),
               tr ++ Post (req None) :: map Post (snd rest))
          end
      end
    else
      (Raise (ConnectionError
                ("connection to api.twitter could not be established, with error "
                   ++ gap ++ "code " ++ str (status_code first))),
       tr ++ [Post (req None)]).
Proof.
  intros Hint req first. unfold paginate, bind, requests_post, raise_if.
  fold req. fold first.
  destruct (status_code first =? 200); cbn [negb]; [|reflexivity].
  unfold ret at 1. cbn [app].
  destruct (results (json first)) as [items|]; [|reflexivity].
  unfold ret at 1.
  destruct (next (json first)) as [token|].
  - assert (Hsub : forall t, sub1 page_count t = (Return (int_of page_count - 1), t)).
    { destruct page_count; try discriminate; reflexivity. }
    rewrite Hsub, continuation_loop_pages, posts_snoc_post, finalize_test.
    fold req. now rewrite <- app_assoc.
  - apply finalize_test.
Qed.

(** On arguments that pass the checks, with a collaborator that answers and
    a language it knows (or none), the call is the lookup followed by the
    paginated fetch of the query as sent. *)
Lemma search_tweets_fetches
    (api oauth_token plan label query page_count from_date to_date language : pyval)
    (langs : list string) (tr : list event) :
  passes api oauth_token plan label query page_count from_date to_date language
  = true ->
  available_languages api = Return langs ->
  accepted language langs = true ->
  search api oauth_token plan label query page_count from_date to_date language tr
  = fetch search_gap (search_url plan label) (bearer oauth_token)
      (sent_query query language) from_date to_date page_count
      (tr ++ [LanguageLookup api]).
Proof.
  intros Hp Hl Ha.
  destruct (search_tweets_checks api oauth_token plan label query page_count
              from_date to_date language tr) as [[Hf _]|[_ ->]]; [congruence|].
  destruct (passes_inv _ _ _ _ _ _ _ _ _ Hp) as ((s & -> & _) & _ & _ & Hstr & _).
  unfold bind. now rewrite (filter_language_returns _ _ _ langs).
Qed.

Lemma wrapper_fetches
    (api oauth_token plan label screen_name page_count from_date to_date language
       : pyval)
    (langs : list string) (tr : list event) :
  passes api oauth_token plan label screen_name page_count from_date to_date
    language = true ->
  available_languages api = Return langs ->
  accepted language langs = true ->
  by_author api oauth_token plan label screen_name page_count from_date to_date
    language tr
  = fetch wrapper_gap (search_url plan label) (bearer oauth_token)
      (sent_query (author_query screen_name) language) from_date to_date page_count
      (tr ++ [LanguageLookup api]).
Proof.
  intros Hp Hl Ha.
  destruct (wrapper_checks api oauth_token plan label screen_name page_count
              from_date to_date language tr) as [[Hf _]|[_ ->]]; [congruence|].
  destruct (passes_inv _ _ _ _ _ _ _ _ _ Hp) as (_ & _ & _ & Hstr & _).
  unfold bind, author_query. now rewrite (filter_language_returns _ _ _ langs).
Qed.

Lemma passes_int
    (api oauth_token plan label subject page_count from_date to_date language
       : pyval) :
  passes api oauth_token plan label subject page_count from_date to_date language
  = true ->
  isinstance_int page_count = true.
Proof. intros Hp. now destruct (passes_inv _ _ _ _ _ _ _ _ _ Hp) as (_ & _ & ? & _). Qed.

(** ** The claims *)

(** C4. On arguments that pass validation, when the first page request
    comes back with a status other than 200, the call raises a
    ConnectionError and the trace holds that one search request only. *)
Theorem first_page_failure_is_ConnectionError
    (api oauth_token plan label subject page_count from_date to_date language
       : pyval)
    (langs : list string) :
  passes api oauth_token plan label subject page_count from_date to_date language
  = true ->
  available_languages api = Return langs ->
  accepted language langs = true ->
  (let req := search_request oauth_token plan label subject from_date to_date
                language in
   status_code (server 0 (req None)) <> 200 ->
   exists msg,
     search api oauth_token plan label subject page_count from_date to_date
       language []
     = (Raise (ConnectionError msg), [LanguageLookup api; Post (req None)]))
  /\
  (let req := search_request oauth_token plan label (author_query subject)
                from_date to_date language in
   status_code (server 0 (req None)) <> 200 ->
   exists msg,
     by_author api oauth_token plan label subject page_count from_date to_date
       language []
     = (Raise (ConnectionError msg), [LanguageLookup api; Post (req None)])).
Proof.
  intros Hp Hl Ha. pose proof (passes_int _ _ _ _ _ _ _ _ _ Hp) as Hint.
  split; intros req Hst; apply Z.eqb_neq in Hst.
  - rewrite (search_tweets_fetches _ _ _ _ _ _ _ _ _ langs) by assumption.
    rewrite paginate_cases by assumption. cbv zeta.
    change (posts ([] ++ [LanguageLookup api])) with 0%nat.
    subst req. unfold search_request in *. rewrite Hst. eexists. reflexivity.
  - rewrite (wrapper_fetches _ _ _ _ _ _ _ _ _ langs) by assumption.
    rewrite paginate_cases by assumption. cbv zeta.
    change (posts ([] ++ [LanguageLookup api])) with 0%nat.
    subst req. unfold search_request in *. rewrite Hst. eexists. reflexivity.
Qed.

Ltac open_fetch langs :=
  first [ rewrite (search_tweets_fetches _ _ _ _ _ _ _ _ _ langs) by assumption
        | rewrite (wrapper_fetches _ _ _ _ _ _ _ _ _ langs) by assumption ];
  rewrite paginate_cases by (eapply passes_int; eassumption);
  cbv zeta;
  change (posts ([] ++ [LanguageLookup _])) with 0%nat;
  unfold search_request in *.

Lemma search_tweets_rejects
    (api oauth_token plan label query page_count from_date to_date language : pyval)
    (tr : list event) :
  passes api oauth_token plan label query page_count from_date to_date language
  = false ->
  exists msg,
    search api oauth_token plan label query page_count from_date to_date language tr
    = (Raise (ValueError msg), tr).
Proof.
  intros Hp.
  destruct (search_tweets_checks api oauth_token plan label query page_count
              from_date to_date language tr) as [[_ (msg & H)]|[Hf _]];
    [now exists msg | congruence].
Qed.

Lemma wrapper_rejects
    (api oauth_token plan label screen_name page_count from_date to_date language
       : pyval)
    (tr : list event) :
  passes api oauth_token plan label screen_name page_count from_date to_date
    language = false ->
  exists msg,
    by_author api oauth_token plan label screen_name page_count from_date to_date
      language tr
    = (Raise (ValueError msg), tr).
Proof.
  intros Hp.
  destruct (wrapper_checks api oauth_token plan label screen_name page_count
              from_date to_date language tr) as [[_ (msg & H)]|[Hf _]];
    [now exists msg | congruence].
Qed.

(** C5. When both dates parse and the start is not strictly earlier than the
    end, both operations raise a ValueError and the trace stays empty: no
    search request and no language lookup. *)
Theorem unordered_dates_raise_before_any_call
    (api oauth_token plan label subject page_count language : pyval)
    (f t : string) (a b : Z) :
  strptime f = Some a ->
  strptime t = Some b ->
  a >= b ->
  (exists msg,
     search api oauth_token plan label subject page_count (PStr f) (PStr t)
       language [] = (Raise (ValueError msg), []))
  /\ (exists msg,
        by_author api oauth_token plan label subject page_count (PStr f) (PStr t)
          language [] = (Raise (ValueError msg), [])).
Proof.
  intros Hf Ht Hge.
  assert (Hp : passes api oauth_token plan label subject page_count (PStr f)
                 (PStr t) language = false).
  { unfold checks_pass, earlier. rewrite Hf, Ht.
    replace (a <? b) with false by (symmetry; apply Z.ltb_ge; lia).
    apply andb_false_r. }
  split; [now apply search_tweets_rejects | now apply wrapper_rejects].
Qed.

(** C6, as amended. When [page_count] is falsy (zero, None, False, ...) or
    is not an [int], both operations raise a ValueError and the trace stays
    empty.  Negative integers are neither: they pass this check. *)
Theorem falsy_or_non_int_page_count_is_rejected
    (api oauth_token plan label subject page_count from_date to_date language
       : pyval) :
  truthy page_count = false \/ isinstance_int page_count = false ->
  (exists msg,
     search api oauth_token plan label subject page_count from_date to_date
       language [] = (Raise (ValueError msg), []))
  /\ (exists msg,
        by_author api oauth_token plan label subject page_count from_date to_date
          language [] = (Raise (ValueError msg), [])).
Proof.
  intros H.
  assert (Hp : passes api oauth_token plan label subject page_count from_date
                 to_date language = false).
  { unfold checks_pass.
    replace (truthy page_count && isinstance_int page_count) with false
      by (destruct H as [-> | ->]; [reflexivity | now rewrite andb_false_r]).
    now rewrite andb_false_r. }
  split; [now apply search_tweets_rejects | now apply wrapper_rejects].
Qed.

(** C9. When a language is given and the set fetched from the collaborator
    does not hold it, both operations raise a ValueError and no search
    request is sent; on arguments that pass the other checks the error is the
    one of line 104 and the trace is the language lookup alone. *)
Theorem unknown_language_is_rejected
    (api oauth_token plan label subject page_count from_date to_date language
       : pyval)
    (langs : list string) :
  truthy language = true ->
  available_languages api = Return langs ->
  py_in language langs = false ->
  (exists msg,
     fst (search api oauth_token plan label subject page_count from_date to_date
            language []) = Raise (ValueError msg))
  /\ posts (snd (search api oauth_token plan label subject page_count from_date
                   to_date language [])) = 0%nat
  /\ (exists msg,
        fst (by_author api oauth_token plan label subject page_count from_date
               to_date language []) = Raise (ValueError msg))
  /\ posts (snd (by_author api oauth_token plan label subject page_count from_date
                   to_date language [])) = 0%nat
  /\ (passes api oauth_token plan label subject page_count from_date to_date
        language = true ->
      search api oauth_token plan label subject page_count from_date to_date
        language []
      = (Raise (ValueError "the introduced language does not exist."),
         [LanguageLookup api])
      /\ by_author api oauth_token plan label subject page_count from_date to_date
           language []
         = (Raise (ValueError "the introduced language does not exist."),
            [LanguageLookup api])).
Proof.
  intros Hl Ha Hin.
  destruct (search_tweets_checks api oauth_token plan label subject page_count
              from_date to_date language []) as [[Hf (m1 & H1)]|[Hp H1]];
  destruct (wrapper_checks api oauth_token plan label subject page_count
              from_date to_date language []) as [[Hf' (m2 & H2)]|[Hp' H2]];
  try congruence; rewrite H1, H2.
  - cbn. repeat split; eauto; congruence.
  - unfold bind.
    rewrite !(filter_language_rejects _ _ _ langs) by assumption. cbn.
    repeat split; eauto.
Qed.

(** ** What the fetch adds to the trace *)

Lemma lookups_app (tr tr' : list event) :
  lookups (tr ++ tr') = (lookups tr + lookups tr')%nat.
Proof. unfold lookups. now rewrite filter_app, length_app. Qed.

Lemma lookups_map_Post (rs : list request) : lookups (map Post rs) = 0%nat.
Proof. unfold lookups. induction rs as [|r rs IH]; cbn; [reflexivity | exact IH]. Qed.

(** The fetch sends its first request and then continuation requests only. *)
Lemma paginate_trace (gap url_ auth : string)
    (query from_date to_date page_count : pyval) (tr : list event) :
  isinstance_int page_count = true ->
  exists rs,
    snd (fetch gap url_ auth query from_date to_date page_count tr)
    = tr ++ map Post
              (page_request url_ auth query from_date to_date None :: rs).
Proof.
  intros Hint. rewrite paginate_cases by assumption. cbv zeta.
  destruct (status_code _ =? 200); [|now exists []].
  destruct (results _) as [items|]; [|now exists []].
  destruct (next _) as [token|]; [|now exists []].
  eexists. reflexivity.
Qed.

(** Filter and fetch together look the languages up exactly once. *)
Lemma one_lookup (gap url_ auth : string)
    (api query from_date to_date page_count language : pyval) :
  isinstance_int page_count = true ->
  exists rest,
    snd ((q <- filter_language api query language ;;
          fetch gap url_ auth q from_date to_date page_count) [])
    = LanguageLookup api :: rest
    /\ lookups rest = 0%nat.
Proof.
  intros Hint. unfold bind.
  pose proof (filter_language_trace api query language []) as Htr.
  destruct (filter_language api query language []) as [[q|e] tr']; cbn in Htr;
    subst tr'.
  - destruct (paginate_trace gap url_ auth q from_date to_date page_count
                [LanguageLookup api] Hint) as [rs ->].
    eexists. split; [reflexivity|]. apply lookups_map_Post.
  - now exists [].
Qed.

(** With a budget of one page or less the loop does not run: one request at
    most, and what is returned is the first page. *)
Lemma single_page (gap url_ auth s : string)
    (api from_date to_date language : pyval) (n : Z) :
  n <= 1 ->
  (truthy language = true -> exists l, language = PStr l) ->
  let run := (q <- filter_language api (PStr s) language ;;
              fetch gap url_ auth q from_date to_date (PInt n)) [] in
  let req := page_request url_ auth (sent_query (PStr s) language) from_date
               to_date in
  (posts (snd run) <= 1)%nat
  /\ forall l, fst run = Return l ->
               l <> [] /\ results (json (server 0 (req None))) = Some l.
Proof.
  intros Hn Hstr run req. subst run. unfold bind.
  destruct (available_languages api) as [langs|e] eqn:Ha.
  - destruct (accepted language langs) eqn:Hacc.
    + rewrite (filter_language_returns _ _ _ langs) by assumption.
      rewrite paginate_cases by reflexivity. cbv zeta.
      change (posts ([] ++ [LanguageLookup api])) with 0%nat. fold req.
      replace (Z.to_nat (int_of (PInt n) - 1)) with 0%nat by (cbn; lia).
      cbn [continuation_pages fst snd map].
      destruct (status_code (server 0 (req None)) =? 200);
        [|cbn; split; [lia | discriminate]].
      destruct (results (json (server 0 (req None)))) as [items|];
        [|cbn; split; [lia | discriminate]].
      destruct (next (json (server 0 (req None)))) as [token|];
        rewrite ?app_nil_r; cbn; (split; [lia|]);
        intros l Hl; destruct items; inversion Hl; subst; split;
        (reflexivity || discriminate).
    + unfold accepted in Hacc. apply orb_false_iff in Hacc.
      destruct Hacc as [Hl Hin]. apply negb_false_iff in Hl.
      rewrite (filter_language_rejects _ _ _ langs) by assumption.
      cbn. split; [lia | discriminate].
  - rewrite (filter_language_fails _ _ _ e) by assumption.
    cbn. split; [lia | discriminate].
Qed.

(** With a budget of one page or less the fetch is its first request alone,
    and its outcome is decided by the answer to it. *)
Lemma paginate_one_page (gap url_ auth : string)
    (query from_date to_date : pyval) (tr : list event) (n : Z) :
  n <= 1 ->
  let req := page_request url_ auth query from_date to_date in
  let first := server (posts tr) (req None) in
  let run := fetch gap url_ auth query from_date to_date (PInt n) tr in
  snd run = tr ++ [Post (req None)]
  /\ (status_code first <> 200 ->
      exists msg, fst run = Raise (ConnectionError msg))
  /\ (status_code first = 200 -> results (json first) = None ->
      exists msg, fst run = Raise (IndexError msg))
  /\ (forall items,
        status_code first = 200 -> results (json first) = Some items ->
        (items <> [] -> fst run = Return items)
        /\ (items = [] -> exists msg, fst run = Raise (IndexError msg))).
Proof.
  intros Hn req first run. subst run.
  rewrite paginate_cases by reflexivity. cbv zeta. fold req. fold first.
  replace (Z.to_nat (int_of (PInt n) - 1)) with 0%nat by (cbn; lia).
  cbn [continuation_pages fst snd map].
  destruct (status_code first =? 200) eqn:Est.
  - apply Z.eqb_eq in Est.
    destruct (results (json first)) as [items|];
      [|repeat split; try congruence; intros; eexists; reflexivity].
    assert (Hfin : forall msg,
               (items <> [] -> finalize msg items = Return items)
               /\ (items = [] ->
                   exists m, @finalize tweet msg items = Raise (IndexError m))).
    { intros msg. destruct items; split; try congruence; intros _;
        [eexists|]; reflexivity. }
    destruct (next (json first)) as [token|]; rewrite ?app_nil_r; cbn [fst snd];
      (split; [reflexivity|]); (split; [congruence|]);
      (split; [congruence|]); intros items' _ [= <-]; apply Hfin.
  - apply Z.eqb_neq in Est.
    repeat split; try congruence; intros; eexists; reflexivity.
Qed.

(** C10. Zero is rejected by validation, every other integer passes the
    check of [page_count], negative ones too; with a [page_count] of one or
    less the loop does not run: at most one search request is sent and a
    returned list is the non-empty item list of the first page.  On
    arguments that pass validation, with a budget of one or less, exactly
    one search request is sent and the call returns the items of the first
    page whenever that page came back with status 200 and a non-empty
    results array; it raises when the page brought nothing. *)
Theorem nonzero_page_count_passes_and_small_budget_fetches_one_page
    (api oauth_token plan label subject from_date to_date language : pyval)
    (n : Z) (langs : list string) :
  (exists msg,
     search api oauth_token plan label subject (PInt 0) from_date to_date
       language [] = (Raise (ValueError msg), []))
  /\ (exists msg,
        by_author api oauth_token plan label subject (PInt 0) from_date to_date
          language [] = (Raise (ValueError msg), []))
  /\ (n <> 0 -> forall tr, check_page_count (PInt n) tr = (Return tt, tr))
  /\ (n <= 1 ->
      let run := search api oauth_token plan label subject (PInt n) from_date
                   to_date language [] in
      let req := search_request oauth_token plan label subject from_date to_date
                   language in
      (posts (snd run) <= 1)%nat
      /\ forall l, fst run = Return l ->
                   l <> [] /\ results (json (server 0 (req None))) = Some l)
  /\ (n <= 1 ->
      let run := by_author api oauth_token plan label subject (PInt n) from_date
                   to_date language [] in
      let req := search_request oauth_token plan label (author_query subject)
                   from_date to_date language in
      (posts (snd run) <= 1)%nat
      /\ forall l, fst run = Return l ->
                   l <> [] /\ results (json (server 0 (req None))) = Some l)
  /\ (n <= 1 ->
      passes api oauth_token plan label subject (PInt n) from_date to_date
        language = true ->
      available_languages api = Return langs ->
      accepted language langs = true ->
      let run := search api oauth_token plan label subject (PInt n) from_date
                   to_date language [] in
      let req := search_request oauth_token plan label subject from_date to_date
                   language in
      let first := server 0 (req None) in
      snd run = [LanguageLookup api; Post (req None)]
      /\ (status_code first <> 200 ->
          exists msg, fst run = Raise (ConnectionError msg))
      /\ (status_code first = 200 -> results (json first) = None ->
          exists msg, fst run = Raise (IndexError msg))
      /\ (forall items,
            status_code first = 200 -> results (json first) = Some items ->
            (items <> [] -> fst run = Return items)
            /\ (items = [] -> exists msg, fst run = Raise (IndexError msg))))
  /\ (n <= 1 ->
      passes api oauth_token plan label subject (PInt n) from_date to_date
        language = true ->
      available_languages api = Return langs ->
      accepted language langs = true ->
      let run := by_author api oauth_token plan label subject (PInt n) from_date
                   to_date language [] in
      let req := search_request oauth_token plan label (author_query subject)
                   from_date to_date language in
      let first := server 0 (req None) in
      snd run = [LanguageLookup api; Post (req None)]
      /\ (status_code first <> 200 ->
          exists msg, fst run = Raise (ConnectionError msg))
      /\ (status_code first = 200 -> results (json first) = None ->
          exists msg, fst run = Raise (IndexError msg))
      /\ (forall items,
            status_code first = 200 -> results (json first) = Some items ->
            (items <> [] -> fst run = Return items)
            /\ (items = [] -> exists msg, fst run = Raise (IndexError msg)))).
Proof.
  assert (H0 : passes api oauth_token plan label subject (PInt 0) from_date
                 to_date language = false).
  { unfold checks_pass. cbn [truthy isinstance_int Z.eqb negb andb].
    now rewrite andb_false_r. }
  split; [now apply search_tweets_rejects|].
  split; [now apply wrapper_rejects|].
  split.
  { intros Hn tr. unfold check_page_count, raise_if. cbn.
    apply Z.eqb_neq in Hn. now rewrite Hn. }
  split; [|split; [|split]].
  - intros Hn run req; subst run.
    destruct (search_tweets_checks api oauth_token plan label subject (PInt n)
                from_date to_date language []) as [[_ (m & ->)]|[Hp ->]].
    + cbn. split; [lia | discriminate].
    + destruct (passes_inv _ _ _ _ _ _ _ _ _ Hp) as ((s & -> & _) & _ & _ & Hstr & _).
      now apply single_page.
  - intros Hn run req; subst run.
    destruct (wrapper_checks api oauth_token plan label subject (PInt n)
                from_date to_date language []) as [[_ (m & ->)]|[Hp ->]].
    + cbn. split; [lia | discriminate].
    + destruct (passes_inv _ _ _ _ _ _ _ _ _ Hp) as (_ & _ & _ & Hstr & _).
      now apply single_page.
  - intros Hn Hp Hl Ha run req first. subst run first req.
    rewrite (search_tweets_fetches _ _ _ _ _ _ _ _ _ langs) by assumption.
    exact (paginate_one_page search_gap (search_url plan label)
             (bearer oauth_token) (sent_query subject language) from_date to_date
             ([] ++ [LanguageLookup api]) n Hn).
  - intros Hn Hp Hl Ha run req first. subst run first req.
    rewrite (wrapper_fetches _ _ _ _ _ _ _ _ _ langs) by assumption.
    exact (paginate_one_page wrapper_gap (search_url plan label)
             (bearer oauth_token) (sent_query (author_query subject) language)
             from_date to_date ([] ++ [LanguageLookup api]) n Hn).
Qed.

Lemma same_behaviour_refl (x : outcome (list tweet)) : same_behaviour x x.
Proof. destruct x; reflexivity. Qed.

(** The blanks in the message do not change what the fetch does. *)
Lemma paginate_gap (g1 g2 url_ auth : string)
    (query from_date to_date page_count : pyval) (tr : list event) :
  isinstance_int page_count = true ->
  same_behaviour (fst (fetch g1 url_ auth query from_date to_date page_count tr))
    (fst (fetch g2 url_ auth query from_date to_date page_count tr))
  /\ snd (fetch g1 url_ auth query from_date to_date page_count tr)
     = snd (fetch g2 url_ auth query from_date to_date page_count tr).
Proof.
  intros Hint. rewrite !paginate_cases by assumption. cbv zeta.
  destruct (status_code _ =? 200); [|split; reflexivity].
  split; [apply same_behaviour_refl | reflexivity].
Qed.

(** C1, as amended. Without a language (None), on arguments that pass the
    checks, the lookup is still made, once and before any search request;
    the set it returns is not used: the query is sent as it is. *)
Theorem lookup_is_made_and_ignored_without_language
    (api oauth_token plan label subject page_count from_date to_date : pyval) :
  passes api oauth_token plan label subject page_count from_date to_date PNone
  = true ->
  (exists rest,
     snd (search api oauth_token plan label subject page_count from_date to_date
            PNone []) = LanguageLookup api :: rest
     /\ lookups rest = 0%nat)
  /\ (exists rest,
        snd (by_author api oauth_token plan label subject page_count from_date
               to_date PNone []) = LanguageLookup api :: rest
        /\ lookups rest = 0%nat)
  /\ (forall langs, available_languages api = Return langs ->
        search api oauth_token plan label subject page_count from_date to_date
          PNone []
        = fetch search_gap (search_url plan label) (bearer oauth_token) subject
            from_date to_date page_count [LanguageLookup api]
        /\ by_author api oauth_token plan label subject page_count from_date
             to_date PNone []
           = fetch wrapper_gap (search_url plan label) (bearer oauth_token)
               (author_query subject) from_date to_date page_count
               [LanguageLookup api]).
Proof.
  intros Hp. pose proof (passes_int _ _ _ _ _ _ _ _ _ Hp) as Hint.
  repeat split.
  - destruct (search_tweets_checks api oauth_token plan label subject page_count
                from_date to_date PNone []) as [[Hf _]|[_ ->]]; [congruence|].
    now apply one_lookup.
  - destruct (wrapper_checks api oauth_token plan label subject page_count
                from_date to_date PNone []) as [[Hf _]|[_ ->]]; [congruence|].
    now apply one_lookup.
  - now rewrite (search_tweets_fetches _ _ _ _ _ _ _ _ _ langs).
  - now rewrite (wrapper_fetches _ _ _ _ _ _ _ _ _ langs).
Qed.

(** C2, as amended. For a screen name that is a non-empty string, the author
    search behaves as the query search of ['from:' + screen_name]: the same
    requests, and the same returned list or an error of the same kind. *)
Theorem author_search_is_search_of_from_clause
    (api oauth_token plan label page_count from_date to_date language : pyval)
    (s : string) :
  s <> "" ->
  same_behaviour
    (fst (by_author api oauth_token plan label (PStr s) page_count from_date
            to_date language []))
    (fst (search api oauth_token plan label (PStr ("from:" ++ s)) page_count
            from_date to_date language []))
  /\ snd (by_author api oauth_token plan label (PStr s) page_count from_date
            to_date language [])
     = snd (search api oauth_token plan label (PStr ("from:" ++ s)) page_count
              from_date to_date language []).
Proof.
  intros Hs.
  assert (Hpp : passes api oauth_token plan label (PStr s) page_count from_date
                  to_date language
                = passes api oauth_token plan label (PStr ("from:" ++ s))
                    page_count from_date to_date language).
  { unfold checks_pass. destruct s as [|c s]; [congruence | reflexivity]. }
  destruct (wrapper_checks api oauth_token plan label (PStr s) page_count
              from_date to_date language []) as [[Hf (m1 & ->)]|[Hp ->]];
  destruct (search_tweets_checks api oauth_token plan label (PStr ("from:" ++ s))
              page_count from_date to_date language [])
    as [[Hf' (m2 & ->)]|[Hp' ->]];
  try congruence.
  - split; reflexivity.
  - unfold bind. cbn [text].
    destruct (filter_language api (PStr ("from:" ++ s)) language []) as [[q|e] tr'].
    + apply paginate_gap. eapply passes_int; eassumption.
    + split; reflexivity.
Qed.

(** C3. On arguments that pass validation, when the first page comes back
    with status 200, a non-empty results array and a continuation token,
    and the first continuation request comes back with another status, the
    call returns the items of the first page, in their order, and raises
    nothing. *)
Theorem failed_continuation_keeps_first_page
    (api oauth_token plan label query page_count from_date to_date language : pyval)
    (langs : list string) (items : list tweet) (token : string) :
  passes api oauth_token plan label query page_count from_date to_date language
  = true ->
  available_languages api = Return langs ->
  accepted language langs = true ->
  let req := search_request oauth_token plan label query from_date to_date
               language in
  status_code (server 0 (req None)) = 200 ->
  json (server 0 (req None)) = mk_body (Some items) (Some token) ->
  items <> [] ->
  status_code (server 1 (req (Some token))) <> 200 ->
  fst (search api oauth_token plan label query page_count from_date to_date
         language []) = Return items.
Proof.
  intros Hp Hl Ha req Hst Hjs Hne Hst2. subst req.
  apply Z.eqb_neq in Hst2. open_fetch langs.
  rewrite Hst, Hjs. cbn [Z.eqb Pos.eqb results next fst].
  destruct (Z.to_nat (int_of page_count - 1)) as [|n];
    cbn [continuation_pages]; rewrite ?Hst2; cbn [fst]; rewrite app_nil_r;
    destruct items; [congruence | reflexivity | congruence | reflexivity].
Qed.

(** C7. When the call reaches its final test (the first page came back with
    status 200 and a results field), it returns the aggregate exactly when
    the aggregate has an item, and raises the "no tweets could be retrieved"
    IndexError when it has none, whichever page left it empty. *)
Theorem final_test_returns_iff_aggregate_nonempty
    (api oauth_token plan label query page_count from_date to_date language : pyval)
    (langs : list string) :
  passes api oauth_token plan label query page_count from_date to_date language
  = true ->
  available_languages api = Return langs ->
  accepted language langs = true ->
  let req := search_request oauth_token plan label query from_date to_date
               language in
  status_code (server 0 (req None)) = 200 ->
  results (json (server 0 (req None))) <> None ->
  let agg := aggregate tweet server req page_count in
  let run := search api oauth_token plan label query page_count from_date to_date
               language [] in
  (fst run = Return agg <-> agg <> [])
  /\ (forall l, fst run = Return l -> l = agg)
  /\ (agg = [] ->
      exists msg, fst run = Raise (IndexError msg)
                  /\ contains "no tweets could be retrieved" msg = true).
Proof.
  intros Hp Hl Ha req Hst Hres agg run. subst run agg req.
  unfold aggregate. open_fetch langs. rewrite Hst. cbn [Z.eqb Pos.eqb].
  destruct (results _) as [items|]; [clear Hres | congruence].
  destruct (next _) as [token|]; cbn [fst].
  - destruct (items ++ _) as [|x agg].
    + cbn. repeat split; try congruence. intros _. eexists. split; reflexivity.
    + cbn. repeat split; congruence.
  - destruct items as [|x agg].
    + cbn. repeat split; try congruence. intros _. eexists. split; reflexivity.
    + cbn. repeat split; congruence.
Qed.

(** C8, as amended. With a budget of three pages, when the first two pages
    come back with 100 items and a token each and the third with 100 items
    and no token, the call returns the 300 items, page after page, and sends
    exactly three search requests, after the one language lookup: four
    external calls in all. *)
Theorem three_full_pages
    (api oauth_token plan label query from_date to_date language : pyval)
    (langs : list string) (p1 p2 p3 : list tweet) (t1 t2 : string) :
  passes api oauth_token plan label query (PInt 3) from_date to_date language
  = true ->
  available_languages api = Return langs ->
  accepted language langs = true ->
  let req := search_request oauth_token plan label query from_date to_date
               language in
  server 0 (req None) = mk_response 200 (mk_body (Some p1) (Some t1)) ->
  server 1 (req (Some t1)) = mk_response 200 (mk_body (Some p2) (Some t2)) ->
  server 2 (req (Some t2)) = mk_response 200 (mk_body (Some p3) None) ->
  List.length p1 = 100%nat ->
  List.length p2 = 100%nat ->
  List.length p3 = 100%nat ->
  let run := search api oauth_token plan label query (PInt 3) from_date to_date
               language [] in
  fst run = Return (p1 ++ p2 ++ p3)
  /\ List.length (p1 ++ p2 ++ p3) = 300%nat
  /\ posts (snd run) = 3%nat
  /\ snd run = [LanguageLookup api; Post (req None); Post (req (Some t1));
                Post (req (Some t2))]
  /\ lookups (snd run) = 1%nat
  /\ List.length (snd run) = 4%nat.
Proof.
  intros Hp Hl Ha req H1 H2 H3 L1 L2 L3 run. subst run req.
  open_fetch langs. rewrite H1.
  change (Z.to_nat (int_of (PInt 3) - 1)) with 2%nat.
  cbn [continuation_pages status_code json results next Z.eqb Pos.eqb].
  rewrite H2. cbn [status_code json results next Z.eqb Pos.eqb]. rewrite H3.
  cbn [status_code json results next Z.eqb Pos.eqb fst snd map app].
  destruct p1 as [|x p1]; [discriminate|].
  repeat split.
  rewrite !length_app, L1, L2, L3. reflexivity.
Qed.

(** ** Further properties of the two operations *)

Abbreviation pages := (continuation_pages tweet server).
Abbreviation following := (follows tweet server).

(** The walk over the continuation pages stays within its budget. *)
Lemma continuation_pages_budget (req : option string -> request) (n : nat) :
  forall (i : nat) (token : string),
    (List.length (snd (pages req n i token)) <= n)%nat.
Proof.
  induction n as [|n IH]; intros i token; cbn [continuation_pages].
  - cbn. lia.
  - destruct (status_code _ =? 200); [|cbn; lia].
    destruct (results _) as [items|]; [|cbn; lia].
    destruct (next _) as [token'|]; [|cbn; lia].
    cbn [snd List.length]. specialize (IH (S i) token'). lia.
Qed.

(** Each request of the walk carries the token of the answer before it. *)
Lemma continuation_pages_follow (req : option string -> request) (n : nat) :
  forall (i : nat) (prev : request) (token : string),
    status_code (server i prev) = 200 ->
    results (json (server i prev)) <> None ->
    next (json (server i prev)) = Some token ->
    following req i prev (snd (pages req n (S i) token)).
Proof.
  induction n as [|n IH]; intros i prev token Hst Hres Hnx;
    cbn [continuation_pages]; [exact I|].
  assert (Hhead : exists tk,
             status_code (server i prev) = 200
             /\ results (json (server i prev)) <> None
             /\ next (json (server i prev)) = Some tk
             /\ req (Some token) = req (Some tk)) by (exists token; auto).
  destruct (status_code (server (S i) _) =? 200) eqn:Est;
    [|cbn; auto].
  destruct (results (json (server (S i) _))) as [items|] eqn:Eres;
    [|cbn; auto].
  destruct (next (json (server (S i) _))) as [token'|] eqn:Enx;
    [|cbn; auto].
  cbn [snd follows]. split; [exact Hhead|].
  apply IH; [now apply Z.eqb_eq | congruence | exact Enx].
Qed.

(** When every answer has status 200, a results field and a token, the walk
    uses its whole budget. *)
Lemma continuation_pages_exhaust (req : option string -> request) (n : nat) :
  (forall i r, status_code (server i r) = 200
               /\ results (json (server i r)) <> None
               /\ next (json (server i r)) <> None) ->
  forall (i : nat) (token : string),
    List.length (snd (pages req n i token)) = n.
Proof.
  intros Hall. induction n as [|n IH]; intros i token; cbn [continuation_pages];
    [reflexivity|].
  destruct (Hall i (req (Some token))) as (Hst & Hres & Hnx).
  rewrite Hst. cbn [Z.eqb Pos.eqb].
  destruct (results _) as [items|]; [|congruence].
  destruct (next _) as [token'|]; [|congruence].
  cbn [snd List.length]. now rewrite IH.
Qed.

(** The requests of the fetch: the first one, then a chain of continuation
    requests within the budget. *)
Lemma paginate_requests (gap url_ auth : string)
    (query from_date to_date page_count : pyval) (tr : list event) :
  isinstance_int page_count = true ->
  let req := page_request url_ auth query from_date to_date in
  exists rs,
    snd (fetch gap url_ auth query from_date to_date page_count tr)
    = tr ++ map Post (req None :: rs)
    /\ (List.length rs <= Z.to_nat (int_of page_count - 1))%nat
    /\ following req (posts tr) (req None) rs.
Proof.
  intros Hint req. rewrite paginate_cases by assumption. cbv zeta. fold req.
  destruct (status_code _ =? 200) eqn:Est;
    [|exists []; cbn; repeat split; lia].
  destruct (results _) as [items|] eqn:Eres;
    [|exists []; cbn; repeat split; lia].
  destruct (next _) as [token|] eqn:Enx;
    [|exists []; cbn; repeat split; lia].
  eexists. split; [reflexivity|]. split.
  - apply continuation_pages_budget.
  - apply continuation_pages_follow;
      [now apply Z.eqb_eq | congruence | exact Enx].
Qed.

(** Filter and fetch, case by case on the collaborator's answer. *)
Lemma filter_then_fetch (gap url_ auth s : string)
    (api from_date to_date page_count language : pyval) (tr : list event) :
  (truthy language = true -> exists l, language = PStr l) ->
  (q <- filter_language api (PStr s) language ;;
   fetch gap url_ auth q from_date to_date page_count) tr
  = match available_languages api with
    | Raise e =>
        (Raise (if caught_lookup e
                then RuntimeError "`available_languages` function failed."
                else e),
         tr ++ [LanguageLookup api])
    | Return langs =>
        if accepted language langs then
          fetch gap url_ auth (sent_query (PStr s) language) from_date to_date
            page_count (tr ++ [LanguageLookup api])
        else
          (Raise (ValueError "the introduced language does not exist."),
           tr ++ [LanguageLookup api])
    end.
Proof.
  intros Hstr. unfold bind.
  destruct (available_languages api) as [langs|e] eqn:Ha.
  - destruct (accepted language langs) eqn:Hacc.
    + now rewrite (filter_language_returns _ _ _ langs).
    + unfold accepted in Hacc. apply orb_false_iff in Hacc.
      destruct Hacc as [Hl Hin]. apply negb_false_iff in Hl.
      now rewrite (filter_language_rejects _ _ _ langs).
  - now rewrite (filter_language_fails _ _ _ e).
Qed.

(** What a call does once its arguments have passed the checks. *)
Abbreviation checked_run gap api oauth_token plan label query page_count
    from_date to_date language tr :=
  (match available_languages api with
   | Raise e =>
       (Raise (if caught_lookup e
               then RuntimeError "`available_languages` function failed."
               else e),
        tr ++ [LanguageLookup api])
   | Return langs =>
       if accepted language langs then
         fetch gap (search_url plan label) (bearer oauth_token)
           (sent_query query language) from_date to_date page_count
           (tr ++ [LanguageLookup api])
       else
         (Raise (ValueError "the introduced language does not exist."),
          tr ++ [LanguageLookup api])
   end).

Lemma search_tweets_run
    (api oauth_token plan label query page_count from_date to_date language : pyval)
    (tr : list event) :
  (passes api oauth_token plan label query page_count from_date to_date language
   = false
   /\ exists msg,
       search api oauth_token plan label query page_count from_date to_date
         language tr = (Raise (ValueError msg), tr))
  \/ (passes api oauth_token plan label query page_count from_date to_date language
      = true
      /\ search api oauth_token plan label query page_count from_date to_date
           language tr
         = checked_run search_gap api oauth_token plan label query page_count
             from_date to_date language tr).
Proof.
  destruct (search_tweets_checks api oauth_token plan label query page_count
              from_date to_date language tr) as [Hrej|[Hp ->]]; [now left|].
  right. split; [exact Hp|].
  destruct (passes_inv _ _ _ _ _ _ _ _ _ Hp) as ((s & -> & _) & _ & _ & Hstr & _).
  now apply filter_then_fetch.
Qed.

Lemma wrapper_run
    (api oauth_token plan label screen_name page_count from_date to_date language
       : pyval)
    (tr : list event) :
  (passes api oauth_token plan label screen_name page_count from_date to_date
     language = false
   /\ exists msg,
       by_author api oauth_token plan label screen_name page_count from_date
         to_date language tr = (Raise (ValueError msg), tr))
  \/ (passes api oauth_token plan label screen_name page_count from_date to_date
        language = true
      /\ by_author api oauth_token plan label screen_name page_count from_date
           to_date language tr
         = checked_run wrapper_gap api oauth_token plan label
             (author_query screen_name) page_count from_date to_date language tr).
Proof.
  destruct (wrapper_checks api oauth_token plan label screen_name page_count
              from_date to_date language tr) as [Hrej|[Hp ->]]; [now left|].
  right. split; [exact Hp|].
  destruct (passes_inv _ _ _ _ _ _ _ _ _ Hp) as (_ & _ & _ & Hstr & _).
  now apply filter_then_fetch.
Qed.

(** X1. On arguments that pass the checks, a collaborator that raises one of
    the three kinds the except clause names makes both operations raise a
    RuntimeError; any other exception of the collaborator passes through
    unchanged.  Either way no search request is sent. *)
Theorem lookup_failure_is_wrapped
    (api oauth_token plan label subject page_count from_date to_date language
       : pyval)
    (e : exn) :
  passes api oauth_token plan label subject page_count from_date to_date language
  = true ->
  available_languages api = Raise e ->
  let raised := if caught_lookup e
                then RuntimeError "`available_languages` function failed."
                else e in
  search api oauth_token plan label subject page_count from_date to_date
    language [] = (Raise raised, [LanguageLookup api])
  /\ by_author api oauth_token plan label subject page_count from_date to_date
       language [] = (Raise raised, [LanguageLookup api]).
Proof.
  intros Hp Ha raised. subst raised. split.
  - destruct (search_tweets_run api oauth_token plan label subject page_count
                from_date to_date language []) as [[Hf _]|[_ ->]]; [congruence|].
    now rewrite Ha.
  - destruct (wrapper_run api oauth_token plan label subject page_count
                from_date to_date language []) as [[Hf _]|[_ ->]]; [congruence|].
    now rewrite Ha.
Qed.

(** X2. A first page that comes back with status 200 and no results field
    makes both operations raise the IndexError of line 128 (290) after that
    one request, whether or not the page carries a token. *)
Theorem first_page_without_results_raises
    (api oauth_token plan label subject page_count from_date to_date language
       : pyval)
    (langs : list string) :
  passes api oauth_token plan label subject page_count from_date to_date language
  = true ->
  available_languages api = Return langs ->
  accepted language langs = true ->
  (let req := search_request oauth_token plan label subject from_date to_date
                language in
   status_code (server 0 (req None)) = 200 ->
   results (json (server 0 (req None))) = None ->
   search api oauth_token plan label subject page_count from_date to_date
     language []
   = (Raise (IndexError "no tweets could be retrieved."),
      [LanguageLookup api; Post (req None)]))
  /\
  (let req := search_request oauth_token plan label (author_query subject)
                from_date to_date language in
   status_code (server 0 (req None)) = 200 ->
   results (json (server 0 (req None))) = None ->
   by_author api oauth_token plan label subject page_count from_date to_date
     language []
   = (Raise (IndexError "no tweets could be retrieved."),
      [LanguageLookup api; Post (req None)])).
Proof.
  intros Hp Hl Ha. split; intros req Hst Hres; subst req; open_fetch langs;
    now rewrite Hst, Hres.
Qed.

(** X3. A date that is not a string the pattern parses makes both operations
    raise a ValueError before any external call. *)
Theorem unparsable_date_is_rejected
    (api oauth_token plan label subject page_count from_date to_date language
       : pyval) :
  parses strptime from_date = false \/ parses strptime to_date = false ->
  (exists msg,
     search api oauth_token plan label subject page_count from_date to_date
       language [] = (Raise (ValueError msg), []))
  /\ (exists msg,
        by_author api oauth_token plan label subject page_count from_date to_date
          language [] = (Raise (ValueError msg), [])).
Proof.
  intros H.
  assert (Hp : passes api oauth_token plan label subject page_count from_date
                 to_date language = false).
  { unfold checks_pass. destruct H as [-> | ->];
      rewrite ?andb_false_r; reflexivity. }
  split; [now apply search_tweets_rejects | now apply wrapper_rejects].
Qed.

(** X4. A language that is truthy and not a string makes both operations
    raise a ValueError before any external call. *)
Theorem non_string_language_is_rejected
    (api oauth_token plan label subject page_count from_date to_date language
       : pyval) :
  truthy language = true ->
  isinstance_str language = false ->
  (exists msg,
     search api oauth_token plan label subject page_count from_date to_date
       language [] = (Raise (ValueError msg), []))
  /\ (exists msg,
        by_author api oauth_token plan label subject page_count from_date to_date
          language [] = (Raise (ValueError msg), [])).
Proof.
  intros Ht Hs.
  assert (Hp : passes api oauth_token plan label subject page_count from_date
                 to_date language = false).
  { unfold checks_pass. rewrite Ht, Hs. cbn [negb andb].
    rewrite ?andb_false_r. reflexivity. }
  split; [now apply search_tweets_rejects | now apply wrapper_rejects].
Qed.

(** ** The shape of a checked run *)

Lemma checked_run_trace (gap : string)
    (api oauth_token plan label query page_count from_date to_date language : pyval) :
  isinstance_int page_count = true ->
  let req := search_request oauth_token plan label query from_date to_date
               language in
  snd (checked_run gap api oauth_token plan label query page_count from_date
         to_date language []) = [LanguageLookup api]
  \/ exists rs,
      snd (checked_run gap api oauth_token plan label query page_count from_date
             to_date language [])
      = LanguageLookup api :: Post (req None) :: map Post rs
      /\ (List.length rs <= Z.to_nat (int_of page_count - 1))%nat
      /\ following req 0 (req None) rs.
Proof.
  intros Hint req.
  destruct (available_languages api) as [langs|e]; [|now left].
  destruct (accepted language langs); [|now left].
  right.
  destruct (paginate_requests gap (search_url plan label) (bearer oauth_token)
              (sent_query query language) from_date to_date page_count
              ([] ++ [LanguageLookup api]) Hint) as (rs & Htr & Hlen & Hfol).
  exists rs. rewrite Htr. repeat split; assumption.
Qed.

Lemma checked_run_returns (gap : string)
    (api oauth_token plan label query page_count from_date to_date language : pyval)
    (l : list tweet) :
  isinstance_int page_count = true ->
  let req := search_request oauth_token plan label query from_date to_date
               language in
  fst (checked_run gap api oauth_token plan label query page_count from_date
         to_date language []) = Return l ->
  l <> []
  /\ status_code (server 0 (req None)) = 200
  /\ exists items rest,
      results (json (server 0 (req None))) = Some items /\ l = items ++ rest.
Proof.
  intros Hint req.
  destruct (available_languages api) as [langs|e]; [|discriminate].
  destruct (accepted language langs); [|discriminate].
  rewrite paginate_cases by assumption. cbv zeta.
  change (posts ([] ++ [LanguageLookup api])) with 0%nat.
  unfold search_request in req. fold req.
  destruct (status_code (server 0 (req None)) =? 200) eqn:Est; [|discriminate].
  apply Z.eqb_eq in Est.
  destruct (results (json (server 0 (req None)))) as [items|]; [|discriminate].
  destruct (next (json (server 0 (req None)))) as [token|]; cbn [fst].
  - destruct (items ++ _) as [|x agg] eqn:Eagg; cbn; [discriminate|].
    intros [= <-]. split; [discriminate|]. split; [exact Est|].
    eexists _, _. split; [reflexivity | now rewrite Eagg].
  - destruct items as [|x agg]; cbn; [discriminate|].
    intros [= <-]. split; [discriminate|]. split; [exact Est|].
    exists (x :: agg), []. split; [reflexivity | now rewrite app_nil_r].
Qed.

(** X5. A falsy language (the empty string, zero, False) is treated as no
    language at all: both operations run as with None. *)
Theorem falsy_language_is_no_language
    (api oauth_token plan label subject page_count from_date to_date language
       : pyval)
    (tr : list event) :
  truthy language = false ->
  search api oauth_token plan label subject page_count from_date to_date
    language tr
  = search api oauth_token plan label subject page_count from_date to_date
      PNone tr
  /\ by_author api oauth_token plan label subject page_count from_date to_date
       language tr
     = by_author api oauth_token plan label subject page_count from_date to_date
         PNone tr.
Proof.
  intros Ht.
  destruct language as [|[]|[| |]|[|c l]| |[]]; try discriminate;
    split; reflexivity.
Qed.

(** X6. A [bool] passed as [page_count] is read as the integer it is: both
    operations run with True as with 1 and with False as with 0. *)
Theorem bool_page_count_is_its_integer
    (api oauth_token plan label subject from_date to_date language : pyval)
    (b : bool) (tr : list event) :
  search api oauth_token plan label subject (PBool b) from_date to_date
    language tr
  = search api oauth_token plan label subject (PInt (if b then 1 else 0))
      from_date to_date language tr
  /\ by_author api oauth_token plan label subject (PBool b) from_date to_date
       language tr
     = by_author api oauth_token plan label subject (PInt (if b then 1 else 0))
         from_date to_date language tr.
Proof. destruct b; split; reflexivity. Qed.

(** X7. Neither operation ever sends more search requests than its page
    budget, and never more than one when the budget is below one. *)
Theorem requests_stay_within_budget
    (api oauth_token plan label subject page_count from_date to_date language
       : pyval) :
  (posts (snd (search api oauth_token plan label subject page_count from_date
                 to_date language []))
   <= Z.to_nat (Z.max 1 (int_of page_count)))%nat
  /\ (posts (snd (by_author api oauth_token plan label subject page_count
                    from_date to_date language []))
      <= Z.to_nat (Z.max 1 (int_of page_count)))%nat.
Proof.
  split.
  - destruct (search_tweets_run api oauth_token plan label subject page_count
                from_date to_date language []) as [[_ (m & ->)]|[Hp ->]];
      [cbn; lia|].
    destruct (checked_run_trace search_gap api oauth_token plan label subject
                page_count from_date to_date language (passes_int _ _ _ _ _ _ _ _ _ Hp))
      as [-> | (rs & -> & Hlen & _)]; [cbn; lia|].
    change (posts (?a :: Post ?r :: map Post rs))
      with (S (posts (map Post rs))).
    rewrite posts_map_Post. lia.
  - destruct (wrapper_run api oauth_token plan label subject page_count
                from_date to_date language []) as [[_ (m & ->)]|[Hp ->]];
      [cbn; lia|].
    destruct (checked_run_trace wrapper_gap api oauth_token plan label
                (author_query subject) page_count from_date to_date language
                (passes_int _ _ _ _ _ _ _ _ _ Hp))
      as [-> | (rs & -> & Hlen & _)]; [cbn; lia|].
    change (posts (?a :: Post ?r :: map Post rs))
      with (S (posts (map Post rs))).
    rewrite posts_map_Post. lia.
Qed.

(** Arguments that pass the checks hold strings where the request needs
    them. *)
Lemma passes_strings
    (api oauth_token plan label subject page_count from_date to_date language
       : pyval) :
  passes api oauth_token plan label subject page_count from_date to_date language
  = true ->
  exists tok pl lb q,
    oauth_token = PStr tok /\ plan = PStr pl /\ label = PStr lb
    /\ subject = PStr q.
Proof.
  unfold checks_pass. intros H.
  repeat (apply andb_prop in H; destruct H as [H ?]).
  repeat match goal with
         | H : _ && _ = true |- _ => apply andb_prop in H; destruct H
         end.
  destruct oauth_token as [| | |tok| |]; try discriminate.
  destruct plan as [| | |pl| |]; try discriminate.
  destruct label as [| | |lb| |]; try discriminate.
  destruct subject as [| | |q| |]; try discriminate.
  now exists tok, pl, lb, q.
Qed.

(** X8. The external calls of [search_tweets] come in one order.  When a
    check fails there is none.  When the checks pass, the language lookup
    comes first; if the collaborator raises or does not know the language,
    nothing follows it; otherwise the first search request follows (URL from
    plan and label, bearer header, the query with its language clause, the
    dates, page size 100, no token) and after it continuation requests that
    are the same request with a token: each carries the token of the answer
    to the request before it, which had status 200 and a results field. *)
Theorem search_tweets_call_order
    (api oauth_token plan label query page_count from_date to_date language : pyval) :
  let run := search api oauth_token plan label query page_count from_date to_date
               language [] in
  (passes api oauth_token plan label query page_count from_date to_date language
   = false -> snd run = [])
  /\ (passes api oauth_token plan label query page_count from_date to_date
        language = true ->
      exists tok pl lb q,
        oauth_token = PStr tok /\ plan = PStr pl /\ label = PStr lb
        /\ query = PStr q
        /\ let wire (token : option string) :=
             mk_request
               (((("https://api.twitter.com/1.1/tweets/search/" ++ pl) ++ "/")
                   ++ lb) ++ ".json")%string
               ("Bearer " ++ tok)%string "application/json"
               (mk_payload
                  (if truthy language
                   then PStr (q ++ (" lang:" ++ text language))%string
                   else PStr q)
                  from_date to_date 100 token) in
           match available_languages api with
           | Raise _ => snd run = [LanguageLookup api]
           | Return langs =>
               if accepted language langs then
                 exists rs,
                   snd run
                   = LanguageLookup api :: Post (wire None) :: map Post rs
                   /\ following wire 0 (wire None) rs
               else snd run = [LanguageLookup api]
           end).
Proof.
  intros run. subst run.
  destruct (search_tweets_run api oauth_token plan label query page_count
              from_date to_date language []) as [[Hf (m & Hrun)]|[Hp Hrun]];
    rewrite Hrun; clear Hrun; (split; [intros H|intros H]); try congruence;
    [reflexivity|].
  destruct (passes_strings _ _ _ _ _ _ _ _ _ Hp)
    as (tok & pl & lb & q & -> & -> & -> & ->).
  exists tok, pl, lb, q. repeat (split; [reflexivity|]). cbv zeta.
  destruct (available_languages api) as [langs|e]; [|reflexivity].
  destruct (accepted language langs); [|reflexivity].
  destruct (paginate_requests search_gap (search_url (PStr pl) (PStr lb))
              (bearer (PStr tok)) (sent_query (PStr q) language) from_date
              to_date page_count ([] ++ [LanguageLookup api])
              (passes_int _ _ _ _ _ _ _ _ _ Hp)) as (rs & Htr & _ & Hfol).
  exists rs. split; [exact Htr | exact Hfol].
Qed.

(** X9. The same order holds for [wrapper_premium_user_search]; the query of
    every request is the author clause ['from:' + screen_name], followed by
    the language clause when a language is given. *)
Theorem wrapper_call_order
    (api oauth_token plan label screen_name page_count from_date to_date language
       : pyval) :
  let run := by_author api oauth_token plan label screen_name page_count from_date
               to_date language [] in
  (passes api oauth_token plan label screen_name page_count from_date to_date
     language = false -> snd run = [])
  /\ (passes api oauth_token plan label screen_name page_count from_date to_date
        language = true ->
      exists tok pl lb name,
        oauth_token = PStr tok /\ plan = PStr pl /\ label = PStr lb
        /\ screen_name = PStr name
        /\ let wire (token : option string) :=
             mk_request
               (((("https://api.twitter.com/1.1/tweets/search/" ++ pl) ++ "/")
                   ++ lb) ++ ".json")%string
               ("Bearer " ++ tok)%string "application/json"
               (mk_payload
                  (if truthy language
                   then PStr (("from:" ++ name) ++ (" lang:" ++ text language))%string
                   else PStr ("from:" ++ name)%string)
                  from_date to_date 100 token) in
           match available_languages api with
           | Raise _ => snd run = [LanguageLookup api]
           | Return langs =>
               if accepted language langs then
                 exists rs,
                   snd run
                   = LanguageLookup api :: Post (wire None) :: map Post rs
                   /\ following wire 0 (wire None) rs
               else snd run = [LanguageLookup api]
           end).
Proof.
  intros run. subst run.
  destruct (wrapper_run api oauth_token plan label screen_name page_count
              from_date to_date language []) as [[Hf (m & Hrun)]|[Hp Hrun]];
    rewrite Hrun; clear Hrun; (split; [intros H|intros H]); try congruence;
    [reflexivity|].
  destruct (passes_strings _ _ _ _ _ _ _ _ _ Hp)
    as (tok & pl & lb & name & -> & -> & -> & ->).
  exists tok, pl, lb, name. repeat (split; [reflexivity|]). cbv zeta.
  destruct (available_languages api) as [langs|e]; [|reflexivity].
  destruct (accepted language langs); [|reflexivity].
  destruct (paginate_requests wrapper_gap (search_url (PStr pl) (PStr lb))
              (bearer (PStr tok)) (sent_query (author_query (PStr name)) language)
              from_date to_date page_count ([] ++ [LanguageLookup api])
              (passes_int _ _ _ _ _ _ _ _ _ Hp)) as (rs & Htr & _ & Hfol).
  exists rs. split; [exact Htr | exact Hfol].
Qed.

(** X10. A list returned by either operation is never empty, and it starts
    with the items of the first page, which came back with status 200. *)
Theorem returned_list_extends_first_page
    (api oauth_token plan label subject page_count from_date to_date language
       : pyval)
    (l : list tweet) :
  (let req := search_request oauth_token plan label subject from_date to_date
                language in
   fst (search api oauth_token plan label subject page_count from_date to_date
          language []) = Return l ->
   l <> []
   /\ status_code (server 0 (req None)) = 200
   /\ exists items rest,
       results (json (server 0 (req None))) = Some items /\ l = items ++ rest)
  /\
  (let req := search_request oauth_token plan label (author_query subject)
                from_date to_date language in
   fst (by_author api oauth_token plan label subject page_count from_date to_date
          language []) = Return l ->
   l <> []
   /\ status_code (server 0 (req None)) = 200
   /\ exists items rest,
       results (json (server 0 (req None))) = Some items /\ l = items ++ rest).
Proof.
  split; intros req.
  - destruct (search_tweets_run api oauth_token plan label subject page_count
                from_date to_date language []) as [[_ (m & ->)]|[Hp ->]];
      [discriminate|].
    apply checked_run_returns. eapply passes_int; eassumption.
  - destruct (wrapper_run api oauth_token plan label subject page_count
                from_date to_date language []) as [[_ (m & ->)]|[Hp ->]];
      [discriminate|].
    apply checked_run_returns. eapply passes_int; eassumption.
Qed.

(** X12. With a budget of [n >= 1] pages and a server whose every answer
    has status 200, a results field and a token, both operations send exactly
    [n] search requests: the loop stops at the budget although pages remain. *)
Theorem whole_budget_is_used
    (api oauth_token plan label subject from_date to_date language : pyval)
    (langs : list string) (n : Z) :
  1 <= n ->
  passes api oauth_token plan label subject (PInt n) from_date to_date language
  = true ->
  available_languages api = Return langs ->
  accepted language langs = true ->
  (forall i r, status_code (server i r) = 200
               /\ results (json (server i r)) <> None
               /\ next (json (server i r)) <> None) ->
  posts (snd (search api oauth_token plan label subject (PInt n) from_date
                to_date language [])) = Z.to_nat n
  /\ posts (snd (by_author api oauth_token plan label subject (PInt n) from_date
                   to_date language [])) = Z.to_nat n.
Proof.
  intros Hn Hp Hl Ha Hall.
  split; open_fetch langs;
    match goal with
    | |- context [server 0 ?r] => destruct (Hall 0%nat r) as (Hst & Hres & Hnx)
    end;
    rewrite Hst; cbn [Z.eqb Pos.eqb];
    (destruct (results _) as [items|]; [|congruence]);
    (destruct (next _) as [token|]; [|congruence]);
    cbn [snd app];
    change (posts (?a :: Post ?r :: map Post ?rs))
      with (S (posts (map Post rs)));
    rewrite posts_map_Post, continuation_pages_exhaust by assumption;
    cbn [int_of]; lia.
Qed.

(** A continuation page of no use, with another status than 200 or without
    a results field, ends the fetch with the first page. *)
Lemma paginate_second_page_unusable (gap url_ auth : string)
    (query from_date to_date page_count : pyval) (tr : list event)
    (items : list tweet) (token : string) :
  isinstance_int page_count = true ->
  let req := page_request url_ auth query from_date to_date in
  status_code (server (posts tr) (req None)) = 200 ->
  json (server (posts tr) (req None)) = mk_body (Some items) (Some token) ->
  items <> [] ->
  status_code (server (S (posts tr)) (req (Some token))) <> 200
  \/ results (json (server (S (posts tr)) (req (Some token)))) = None ->
  fst (fetch gap url_ auth query from_date to_date page_count tr) = Return items.
Proof.
  intros Hint req Hst Hjs Hne Hbad. rewrite paginate_cases by assumption.
  cbv zeta. fold req. rewrite Hst, Hjs. cbn [Z.eqb Pos.eqb results next fst].
  assert (Hnil : fst (pages req (Z.to_nat (int_of page_count - 1)) (S (posts tr))
                        token) = []).
  { destruct (Z.to_nat (int_of page_count - 1)) as [|n];
      cbn [continuation_pages]; [reflexivity|].
    destruct Hbad as [Hbad | Hbad].
    - apply Z.eqb_neq in Hbad. now rewrite Hbad.
    - rewrite Hbad. now destruct (status_code _ =? 200). }
  rewrite Hnil, app_nil_r. destruct items; [congruence | reflexivity].
Qed.

(** X13. When the first page has items and a token and the page after it is
    of no use (another status than 200, or no results field), both
    operations return the items of the first page and raise nothing. *)
Theorem unusable_second_page_keeps_first_page
    (api oauth_token plan label subject page_count from_date to_date language
       : pyval)
    (langs : list string) (items : list tweet) (token : string) :
  passes api oauth_token plan label subject page_count from_date to_date language
  = true ->
  available_languages api = Return langs ->
  accepted language langs = true ->
  items <> [] ->
  (let req := search_request oauth_token plan label subject from_date to_date
                language in
   status_code (server 0 (req None)) = 200 ->
   json (server 0 (req None)) = mk_body (Some items) (Some token) ->
   status_code (server 1 (req (Some token))) <> 200
   \/ results (json (server 1 (req (Some token)))) = None ->
   fst (search api oauth_token plan label subject page_count from_date to_date
          language []) = Return items)
  /\
  (let req := search_request oauth_token plan label (author_query subject)
                from_date to_date language in
   status_code (server 0 (req None)) = 200 ->
   json (server 0 (req None)) = mk_body (Some items) (Some token) ->
   status_code (server 1 (req (Some token))) <> 200
   \/ results (json (server 1 (req (Some token)))) = None ->
   fst (by_author api oauth_token plan label subject page_count from_date to_date
          language []) = Return items).
Proof.
  intros Hp Hl Ha Hne. pose proof (passes_int _ _ _ _ _ _ _ _ _ Hp) as Hint.
  split; intros req Hst Hjs Hbad.
  - rewrite (search_tweets_fetches _ _ _ _ _ _ _ _ _ langs) by assumption.
    now apply paginate_second_page_unusable with (token := token).
  - rewrite (wrapper_fetches _ _ _ _ _ _ _ _ _ langs) by assumption.
    now apply paginate_second_page_unusable with (token := token).
Qed.

(** X14. When the author search reaches its final test (the first page came
    back with status 200 and a results field), it returns the aggregate
    exactly when the aggregate has an item and raises an IndexError when it
    has none. *)
Theorem wrapper_returns_iff_aggregate_nonempty
    (api oauth_token plan label screen_name page_count from_date to_date language
       : pyval)
    (langs : list string) :
  passes api oauth_token plan label screen_name page_count from_date to_date
    language = true ->
  available_languages api = Return langs ->
  accepted language langs = true ->
  let req := search_request oauth_token plan label (author_query screen_name)
               from_date to_date language in
  status_code (server 0 (req None)) = 200 ->
  results (json (server 0 (req None))) <> None ->
  let agg := aggregate tweet server req page_count in
  let run := by_author api oauth_token plan label screen_name page_count from_date
               to_date language [] in
  (fst run = Return agg <-> agg <> [])
  /\ (forall l, fst run = Return l -> l = agg)
  /\ (agg = [] ->
      exists msg, fst run = Raise (IndexError msg)
                  /\ contains "no tweets could be retrieved" msg = true).
Proof.
  intros Hp Hl Ha req Hst Hres agg run. subst run agg req.
  unfold aggregate. open_fetch langs. rewrite Hst. cbn [Z.eqb Pos.eqb].
  destruct (results _) as [items|]; [clear Hres | congruence].
  destruct (next _) as [token|]; cbn [fst].
  - destruct (items ++ _) as [|x agg].
    + cbn. repeat split; try congruence. intros _. eexists. split; reflexivity.
    + cbn. repeat split; congruence.
  - destruct items as [|x agg].
    + cbn. repeat split; try congruence. intros _. eexists. split; reflexivity.
    + cbn. repeat split; congruence.
Qed.

(** X15. The first search request as it goes out: the URL is built from plan
    and label, the header carries the bearer token, and the body holds the
    query (with the language clause when a language is given, behind the
    author clause in the author search), the two dates as they came and a
    page size of 100, without a token. *)
Theorem first_request_on_the_wire
    (api page_count from_date to_date language : pyval)
    (tok pl lb q : string) (langs : list string) :
  passes api (PStr tok) (PStr pl) (PStr lb) (PStr q) page_count from_date to_date
    language = true ->
  available_languages api = Return langs ->
  accepted language langs = true ->
  let sent (base : string) : string :=
    if truthy language then (base ++ (" lang:" ++ text language))%string
    else base in
  let wire (query : string) :=
    Post (mk_request
            (((("https://api.twitter.com/1.1/tweets/search/" ++ pl) ++ "/") ++ lb)
               ++ ".json")%string
            ("Bearer " ++ tok)%string "application/json"
            (mk_payload (PStr query) from_date to_date 100 None)) in
  (exists rest,
      snd (search api (PStr tok) (PStr pl) (PStr lb) (PStr q) page_count
             from_date to_date language [])
      = LanguageLookup api :: wire (sent q) :: rest)
  /\ (exists rest,
         snd (by_author api (PStr tok) (PStr pl) (PStr lb) (PStr q) page_count
                from_date to_date language [])
         = LanguageLookup api :: wire (sent ("from:" ++ q)%string) :: rest).
Proof.
  intros Hp Hl Ha sent wire. subst sent wire.
  pose proof (passes_int _ _ _ _ _ _ _ _ _ Hp) as Hint. split.
  - rewrite (search_tweets_fetches _ _ _ _ _ _ _ _ _ langs) by assumption.
    destruct (paginate_trace search_gap (search_url (PStr pl) (PStr lb))
                (bearer (PStr tok)) (sent_query (PStr q) language) from_date
                to_date page_count ([] ++ [LanguageLookup api]) Hint) as [rs ->].
    exists (map Post rs). unfold sent_query.
    destruct (truthy language); reflexivity.
  - rewrite (wrapper_fetches _ _ _ _ _ _ _ _ _ langs) by assumption.
    destruct (paginate_trace wrapper_gap (search_url (PStr pl) (PStr lb))
                (bearer (PStr tok)) (sent_query (author_query (PStr q)) language)
                from_date to_date page_count ([] ++ [LanguageLookup api]) Hint)
      as [rs ->].
    exists (map Post rs). unfold sent_query.
    destruct (truthy language); reflexivity.
Qed.





End Properties.

(** * Worked examples on the concrete environment *)

(** C1: without a language, both operations still call the collaborator. *)
Lemma lookup_made_without_language :
  lookups (snd (search_tweets nat strptime12 three_languages three_pages
                  PClient (PStr "tok") (PStr "30day") (PStr "dev") (PStr "rocq")
                  (PInt 3) d2019 d2020 PNone [])) <> 0%nat
  /\ lookups (snd (wrapper_premium_user_search nat strptime12 three_languages
                     three_pages
                     PClient (PStr "tok") (PStr "30day") (PStr "dev") (PStr "rocq")
                     (PInt 3) d2019 d2020 PNone [])) <> 0%nat.
Proof. vm_compute. split; discriminate. Qed.

Lemma lookup_is_made_and_ignored_witness :
  exists rest,
    snd (search_tweets nat strptime12 three_languages three_pages
           PClient (PStr "tok") (PStr "30day") (PStr "dev") (PStr "rocq")
           (PInt 3) d2019 d2020 PNone []) = LanguageLookup PClient :: rest
    /\ lookups rest = 0%nat.
Proof.
  exact (proj1 (lookup_is_made_and_ignored_without_language nat strptime12
                  three_languages three_pages
                  PClient (PStr "tok") (PStr "30day") (PStr "dev") (PStr "rocq")
                  (PInt 3) d2019 d2020 eq_refl)).
Defined.

(** C2: on an empty screen name the author search raises, while the query
    search of ['from:'] returns the first page. *)
Lemma empty_screen_name_differs :
  ~ same_behaviour
      (fst (wrapper_premium_user_search nat strptime12 three_languages three_pages
              PClient (PStr "tok") (PStr "30day") (PStr "dev") (PStr "")
              (PInt 1) d2019 d2020 PNone []))
      (fst (search_tweets nat strptime12 three_languages three_pages
              PClient (PStr "tok") (PStr "30day") (PStr "dev") (PStr ("from:" ++ ""))
              (PInt 1) d2019 d2020 PNone [])).
Proof. vm_compute. intros H. exact H. Qed.

Lemma author_search_is_search_witness :
  same_behaviour
    (fst (wrapper_premium_user_search nat strptime12 three_languages three_pages
            PClient (PStr "tok") (PStr "30day") (PStr "dev") (PStr "rocq")
            (PInt 2) d2019 d2020 (PStr "en") []))
    (fst (search_tweets nat strptime12 three_languages three_pages
            PClient (PStr "tok") (PStr "30day") (PStr "dev") (PStr ("from:" ++ "rocq"))
            (PInt 2) d2019 d2020 (PStr "en") [])).
Proof.
  refine (proj1 (author_search_is_search_of_from_clause nat strptime12
                   three_languages three_pages
                   PClient (PStr "tok") (PStr "30day") (PStr "dev")
                   (PInt 2) d2019 d2020 (PStr "en") "rocq" _)).
  discriminate.
Defined.

Lemma failed_continuation_witness :
  fst (search_tweets nat strptime12 three_languages one_page_then_down
         PClient (PStr "tok") (PStr "30day") (PStr "dev") (PStr "rocq")
         (PInt 5) d2019 d2020 (PStr "en") []) = Return [1; 2]%nat.
Proof.
  refine (failed_continuation_keeps_first_page nat strptime12 three_languages
            one_page_then_down
            PClient (PStr "tok") (PStr "30day") (PStr "dev") (PStr "rocq")
            (PInt 5) d2019 d2020 (PStr "en") ["en"; "es"; "fr"]%string
            [1; 2]%nat "t1" eq_refl eq_refl eq_refl eq_refl eq_refl _ _);
    discriminate.
Defined.

Lemma first_page_failure_witness :
  exists msg,
    wrapper_premium_user_search nat strptime12 three_languages always_down
      PClient (PStr "tok") (PStr "30day") (PStr "dev") (PStr "rocq")
      (PInt 2) d2019 d2020 (PStr "en") []
    = (Raise (ConnectionError msg),
       [LanguageLookup PClient;
        Post (search_request (PStr "tok") (PStr "30day") (PStr "dev")
                (author_query (PStr "rocq")) d2019 d2020 (PStr "en") None)]).
Proof.
  refine (proj2 (first_page_failure_is_ConnectionError nat strptime12
                   three_languages always_down
                   PClient (PStr "tok") (PStr "30day") (PStr "dev") (PStr "rocq")
                   (PInt 2) d2019 d2020 (PStr "en") ["en"; "es"; "fr"]%string
                   eq_refl eq_refl eq_refl) _).
  discriminate.
Defined.

Lemma unordered_dates_witness :
  exists msg,
    search_tweets nat strptime12 three_languages three_pages
      PClient (PStr "tok") (PStr "30day") (PStr "dev") (PStr "rocq")
      (PInt 2) d2020 d2019 (PStr "en") [] = (Raise (ValueError msg), []).
Proof.
  refine (proj1 (unordered_dates_raise_before_any_call nat strptime12
                   three_languages three_pages
                   PClient (PStr "tok") (PStr "30day") (PStr "dev") (PStr "rocq")
                   (PInt 2) (PStr "en") "202001010000" "201901010000"
                   202001010000 201901010000 eq_refl eq_refl _)).
  lia.
Defined.

(** C6: a negative [page_count] is not rejected; the first page is fetched
    and returned. *)
Lemma negative_page_count_is_accepted :
  fst (search_tweets nat strptime12 three_languages three_pages
         PClient (PStr "tok") (PStr "30day") (PStr "dev") (PStr "rocq")
         (PInt (-1)) d2019 d2020 PNone []) = Return [1; 2]%nat
  /\ posts (snd (search_tweets nat strptime12 three_languages three_pages
                   PClient (PStr "tok") (PStr "30day") (PStr "dev") (PStr "rocq")
                   (PInt (-1)) d2019 d2020 PNone [])) = 1%nat
  /\ ~ (exists msg,
          fst (search_tweets nat strptime12 three_languages three_pages
                 PClient (PStr "tok") (PStr "30day") (PStr "dev") (PStr "rocq")
                 (PInt (-1)) d2019 d2020 PNone []) = Raise (ValueError msg)).
Proof.
  vm_compute. repeat split. intros [msg H]. discriminate H.
Qed.

Lemma falsy_page_count_witness :
  exists msg,
    search_tweets nat strptime12 three_languages three_pages
      PClient (PStr "tok") (PStr "30day") (PStr "dev") (PStr "rocq")
      PNone d2019 d2020 (PStr "en") [] = (Raise (ValueError msg), []).
Proof.
  refine (proj1 (falsy_or_non_int_page_count_is_rejected nat strptime12
                   three_languages three_pages
                   PClient (PStr "tok") (PStr "30day") (PStr "dev") (PStr "rocq")
                   PNone d2019 d2020 (PStr "en") _)).
  left. reflexivity.
Defined.

Lemma final_test_witness :
  let req := search_request (PStr "tok") (PStr "30day") (PStr "dev") (PStr "rocq")
               d2019 d2020 (PStr "en") in
  let agg := aggregate nat three_pages req (PInt 2) in
  let run := search_tweets nat strptime12 three_languages three_pages
               PClient (PStr "tok") (PStr "30day") (PStr "dev") (PStr "rocq")
               (PInt 2) d2019 d2020 (PStr "en") [] in
  agg = [1; 2; 3; 4]%nat
  /\ (fst run = Return agg <-> agg <> [])
  /\ (forall l, fst run = Return l -> l = agg)
  /\ (agg = [] ->
      exists msg, fst run = Raise (IndexError msg)
                  /\ contains "no tweets could be retrieved" msg = true).
Proof.
  split; [reflexivity|].
  refine (final_test_returns_iff_aggregate_nonempty nat strptime12
            three_languages three_pages
            PClient (PStr "tok") (PStr "30day") (PStr "dev") (PStr "rocq")
            (PInt 2) d2019 d2020 (PStr "en") ["en"; "es"; "fr"]%string
            eq_refl eq_refl eq_refl eq_refl _).
  discriminate.
Defined.

(** Pages that are all empty leave the aggregate empty: the final test
    raises, although every request succeeded. *)
Example empty_pages_raise :
  search_tweets nat strptime12 three_languages empty_pages
    PClient (PStr "tok") (PStr "30day") (PStr "dev") (PStr "rocq")
    (PInt 2) d2019 d2020 PNone []
  = (Raise (IndexError "no tweets could be retrieved."),
     [LanguageLookup PClient;
      Post (search_request (PStr "tok") (PStr "30day") (PStr "dev") (PStr "rocq")
              d2019 d2020 PNone None);
      Post (search_request (PStr "tok") (PStr "30day") (PStr "dev") (PStr "rocq")
              d2019 d2020 PNone (Some "more"))]).
Proof. reflexivity. Qed.

(** C8: with the lookup counted, the three pages take four external calls,
    not three. *)
Lemma three_pages_take_four_calls :
  List.length
    (snd (search_tweets nat strptime12 three_languages hundred_pages
            PClient (PStr "tok") (PStr "30day") (PStr "dev") (PStr "rocq")
            (PInt 3) d2019 d2020 PNone [])) <> 3%nat
  /\ List.length
       (snd (search_tweets nat strptime12 three_languages hundred_pages
               PClient (PStr "tok") (PStr "30day") (PStr "dev") (PStr "rocq")
               (PInt 3) d2019 d2020 PNone [])) = 4%nat
  /\ is_lookup
       (hd (Post (search_request (PStr "tok") (PStr "30day") (PStr "dev")
                    (PStr "rocq") d2019 d2020 PNone None))
           (snd (search_tweets nat strptime12 three_languages hundred_pages
                   PClient (PStr "tok") (PStr "30day") (PStr "dev") (PStr "rocq")
                   (PInt 3) d2019 d2020 PNone []))) = true.
Proof. vm_compute. repeat split. discriminate. Qed.

Lemma three_full_pages_witness :
  let req := search_request (PStr "tok") (PStr "30day") (PStr "dev") (PStr "rocq")
               d2019 d2020 PNone in
  let run := search_tweets nat strptime12 three_languages hundred_pages
               PClient (PStr "tok") (PStr "30day") (PStr "dev") (PStr "rocq")
               (PInt 3) d2019 d2020 PNone [] in
  fst run = Return (seq 1 100 ++ seq 101 100 ++ seq 201 100)
  /\ List.length (seq 1 100 ++ seq 101 100 ++ seq 201 100) = 300%nat
  /\ posts (snd run) = 3%nat
  /\ snd run = [LanguageLookup PClient; Post (req None); Post (req (Some "t1"));
                Post (req (Some "t2"))]
  /\ lookups (snd run) = 1%nat
  /\ List.length (snd run) = 4%nat.
Proof.
  exact (three_full_pages nat strptime12 three_languages hundred_pages
           PClient (PStr "tok") (PStr "30day") (PStr "dev") (PStr "rocq")
           d2019 d2020 PNone ["en"; "es"; "fr"]%string
           (seq 1 100) (seq 101 100) (seq 201 100) "t1" "t2"
           eq_refl eq_refl eq_refl eq_refl eq_refl eq_refl eq_refl eq_refl eq_refl).
Defined.

Lemma unknown_language_witness :
  wrapper_premium_user_search nat strptime12 three_languages three_pages
    PClient (PStr "tok") (PStr "30day") (PStr "dev") (PStr "rocq")
    (PInt 2) d2019 d2020 (PStr "de") []
  = (Raise (ValueError "the introduced language does not exist."),
     [LanguageLookup PClient]).
Proof.
  refine (proj2 (proj2 (proj2 (proj2 (proj2
            (unknown_language_is_rejected nat strptime12 three_languages
               three_pages
               PClient (PStr "tok") (PStr "30day") (PStr "dev") (PStr "rocq")
               (PInt 2) d2019 d2020 (PStr "de") ["en"; "es"; "fr"]%string
               eq_refl eq_refl eq_refl)))) eq_refl)).
Defined.

Lemma negative_budget_witness :
  let run := search_tweets nat strptime12 three_languages three_pages
               PClient (PStr "tok") (PStr "30day") (PStr "dev") (PStr "rocq")
               (PInt (-2)) d2019 d2020 PNone [] in
  let req := search_request (PStr "tok") (PStr "30day") (PStr "dev") (PStr "rocq")
               d2019 d2020 PNone in
  check_page_count (PInt (-2)) [] = (Return tt, [])
  /\ fst run = Return [1; 2]%nat
  /\ snd run = [LanguageLookup PClient; Post (req None)]
  /\ (posts (snd run) <= 1)%nat
  /\ (forall l, fst run = Return l ->
        l <> [] /\ results (json (three_pages 0 (req None))) = Some l).
Proof.
  destruct (nonzero_page_count_passes_and_small_budget_fetches_one_page nat
              strptime12 three_languages three_pages
              PClient (PStr "tok") (PStr "30day") (PStr "dev") (PStr "rocq")
              d2019 d2020 PNone (-2) ["en"; "es"; "fr"]%string)
    as (_ & _ & Hcheck & Hone & _ & Hexact & _).
  assert (Hsmall : -2 <= 1) by lia.
  destruct (Hexact Hsmall eq_refl eq_refl eq_refl) as (Htrace & _ & _ & Hitems).
  split; [apply Hcheck; lia|].
  split; [apply (Hitems [1; 2]%nat eq_refl eq_refl); discriminate|].
  split; [exact Htrace|].
  apply Hone. lia.
Defined.

(** A collaborator that is down fails the call even when no language was
    asked for. *)
Example lookup_failure_without_language :
  search_tweets nat strptime12 languages_down three_pages
    PClient (PStr "tok") (PStr "30day") (PStr "dev") (PStr "rocq")
    (PInt 3) d2019 d2020 PNone []
  = (Raise (RuntimeError "`available_languages` function failed."),
     [LanguageLookup PClient]).
Proof. reflexivity. Qed.

(** ** Worked examples for the further properties *)

Lemma lookup_failure_witness :
  search_tweets nat strptime12 languages_down three_pages
    PClient (PStr "tok") (PStr "30day") (PStr "dev") (PStr "rocq")
    (PInt 3) d2019 d2020 (PStr "en") []
  = (Raise (RuntimeError "`available_languages` function failed."),
     [LanguageLookup PClient]).
Proof.
  exact (proj1 (lookup_failure_is_wrapped nat strptime12 languages_down
                  three_pages
                  PClient (PStr "tok") (PStr "30day") (PStr "dev") (PStr "rocq")
                  (PInt 3) d2019 d2020 (PStr "en")
                  (ConnectionError "connection error") eq_refl eq_refl)).
Defined.

(** An exception of another kind is not wrapped. *)
Example foreign_lookup_failure_passes_through :
  wrapper_premium_user_search nat strptime12 languages_broken three_pages
    PClient (PStr "tok") (PStr "30day") (PStr "dev") (PStr "rocq")
    (PInt 3) d2019 d2020 PNone []
  = (Raise (TypeError "unexpected"), [LanguageLookup PClient]).
Proof. reflexivity. Qed.

Lemma first_page_without_results_witness :
  search_tweets nat strptime12 three_languages no_results
    PClient (PStr "tok") (PStr "30day") (PStr "dev") (PStr "rocq")
    (PInt 3) d2019 d2020 PNone []
  = (Raise (IndexError "no tweets could be retrieved."),
     [LanguageLookup PClient;
      Post (search_request (PStr "tok") (PStr "30day") (PStr "dev") (PStr "rocq")
              d2019 d2020 PNone None)]).
Proof.
  exact (proj1 (first_page_without_results_raises nat strptime12 three_languages
                  no_results
                  PClient (PStr "tok") (PStr "30day") (PStr "dev") (PStr "rocq")
                  (PInt 3) d2019 d2020 PNone ["en"; "es"; "fr"]%string
                  eq_refl eq_refl eq_refl) eq_refl eq_refl).
Defined.

Lemma unparsable_date_witness :
  exists msg,
    search_tweets nat strptime12 three_languages three_pages
      PClient (PStr "tok") (PStr "30day") (PStr "dev") (PStr "rocq")
      (PInt 3) (PStr "2019-01-01") d2020 PNone [] = (Raise (ValueError msg), []).
Proof.
  refine (proj1 (unparsable_date_is_rejected nat strptime12 three_languages
                   three_pages
                   PClient (PStr "tok") (PStr "30day") (PStr "dev") (PStr "rocq")
                   (PInt 3) (PStr "2019-01-01") d2020 PNone _)).
  left. reflexivity.
Defined.

Lemma non_string_language_witness :
  exists msg,
    wrapper_premium_user_search nat strptime12 three_languages three_pages
      PClient (PStr "tok") (PStr "30day") (PStr "dev") (PStr "rocq")
      (PInt 3) d2019 d2020 (PInt 5) [] = (Raise (ValueError msg), []).
Proof.
  exact (proj2 (non_string_language_is_rejected nat strptime12 three_languages
                  three_pages
                  PClient (PStr "tok") (PStr "30day") (PStr "dev") (PStr "rocq")
                  (PInt 3) d2019 d2020 (PInt 5) eq_refl eq_refl)).
Defined.

Lemma falsy_language_witness :
  search_tweets nat strptime12 three_languages three_pages
    PClient (PStr "tok") (PStr "30day") (PStr "dev") (PStr "rocq")
    (PInt 3) d2019 d2020 (PStr "") []
  = search_tweets nat strptime12 three_languages three_pages
      PClient (PStr "tok") (PStr "30day") (PStr "dev") (PStr "rocq")
      (PInt 3) d2019 d2020 PNone [].
Proof.
  exact (proj1 (falsy_language_is_no_language nat strptime12 three_languages
                  three_pages
                  PClient (PStr "tok") (PStr "30day") (PStr "dev") (PStr "rocq")
                  (PInt 3) d2019 d2020 (PStr "") [] eq_refl)).
Defined.

Lemma returned_list_witness :
  [1; 2; 3; 4; 5; 6]%nat <> []
  /\ status_code (three_pages 0
                    (search_request (PStr "tok") (PStr "30day") (PStr "dev")
                       (PStr "rocq") d2019 d2020 (PStr "es") None)) = 200
  /\ exists items rest,
      results (json (three_pages 0
                       (search_request (PStr "tok") (PStr "30day") (PStr "dev")
                          (PStr "rocq") d2019 d2020 (PStr "es") None)))
      = Some items
      /\ [1; 2; 3; 4; 5; 6]%nat = items ++ rest.
Proof.
  exact (proj1 (returned_list_extends_first_page nat strptime12 three_languages
                  three_pages
                  PClient (PStr "tok") (PStr "30day") (PStr "dev") (PStr "rocq")
                  (PInt 3) d2019 d2020 (PStr "es") [1; 2; 3; 4; 5; 6]%nat)
           eq_refl).
Defined.

Lemma whole_budget_witness :
  posts (snd (search_tweets nat strptime12 three_languages endless_pages
                PClient (PStr "tok") (PStr "30day") (PStr "dev") (PStr "rocq")
                (PInt 4) d2019 d2020 PNone [])) = 4%nat.
Proof.
  refine (proj1 (whole_budget_is_used nat strptime12 three_languages endless_pages
                   PClient (PStr "tok") (PStr "30day") (PStr "dev") (PStr "rocq")
                   d2019 d2020 PNone ["en"; "es"; "fr"]%string 4
                   _ eq_refl eq_refl eq_refl _)).
  - lia.
  - intros i r. repeat split; discriminate.
Defined.

Lemma unusable_second_page_witness :
  fst (wrapper_premium_user_search nat strptime12 three_languages second_page_bare
         PClient (PStr "tok") (PStr "30day") (PStr "dev") (PStr "rocq")
         (PInt 3) d2019 d2020 PNone []) = Return [1; 2]%nat.
Proof.
  refine (proj2 (unusable_second_page_keeps_first_page nat strptime12
                   three_languages second_page_bare
                   PClient (PStr "tok") (PStr "30day") (PStr "dev") (PStr "rocq")
                   (PInt 3) d2019 d2020 PNone ["en"; "es"; "fr"]%string
                   [1; 2]%nat "t1" eq_refl eq_refl eq_refl _)
            eq_refl eq_refl _).
  - discriminate.
  - right. reflexivity.
Defined.

Lemma wrapper_final_test_witness :
  let req := search_request (PStr "tok") (PStr "30day") (PStr "dev")
               (author_query (PStr "rocq")) d2019 d2020 PNone in
  let agg := aggregate nat three_pages req (PInt 3) in
  let run := wrapper_premium_user_search nat strptime12 three_languages
               three_pages
               PClient (PStr "tok") (PStr "30day") (PStr "dev") (PStr "rocq")
               (PInt 3) d2019 d2020 PNone [] in
  agg = [1; 2; 3; 4; 5; 6]%nat
  /\ (fst run = Return agg <-> agg <> [])
  /\ (forall l, fst run = Return l -> l = agg)
  /\ (agg = [] ->
      exists msg, fst run = Raise (IndexError msg)
                  /\ contains "no tweets could be retrieved" msg = true).
Proof.
  split; [reflexivity|].
  refine (wrapper_returns_iff_aggregate_nonempty nat strptime12 three_languages
            three_pages
            PClient (PStr "tok") (PStr "30day") (PStr "dev") (PStr "rocq")
            (PInt 3) d2019 d2020 PNone ["en"; "es"; "fr"]%string
            eq_refl eq_refl eq_refl eq_refl _).
  discriminate.
Defined.

Lemma first_request_witness :
  exists rest,
    snd (wrapper_premium_user_search nat strptime12 three_languages three_pages
           PClient (PStr "tok") (PStr "30day") (PStr "dev") (PStr "rocq")
           (PInt 1) d2019 d2020 (PStr "fr") [])
    = LanguageLookup PClient
        :: Post (mk_request
                   "https://api.twitter.com/1.1/tweets/search/30day/dev.json"
                   "Bearer tok" "application/json"
                   (mk_payload (PStr "from:rocq lang:fr") d2019 d2020 100 None))
        :: rest.
Proof.
  exact (proj2 (first_request_on_the_wire nat strptime12 three_languages
                  three_pages PClient (PInt 1) d2019 d2020 (PStr "fr")
                  "tok" "30day" "dev" "rocq" ["en"; "es"; "fr"]%string
                  eq_refl eq_refl eq_refl)).
Defined.


(** From budget -1 to budget 0 the list is lost: zero does not pass the
    checks. *)
Example budget_zero_loses_the_list :
  fst (search_tweets nat strptime12 three_languages three_pages
         PClient (PStr "tok") (PStr "30day") (PStr "dev") (PStr "rocq")
         (PInt (-1)) d2019 d2020 PNone []) = Return [1; 2]%nat
  /\ fst (search_tweets nat strptime12 three_languages three_pages
            PClient (PStr "tok") (PStr "30day") (PStr "dev") (PStr "rocq")
            (PInt 0) d2019 d2020 PNone [])
     = Raise (ValueError "page_count must be an `int`!").
Proof. split; reflexivity. Qed.

Lemma search_tweets_call_order_witness :
  let wire (token : option string) :=
    mk_request "https://api.twitter.com/1.1/tweets/search/30day/dev.json"
      "Bearer tok" "application/json"
      (mk_payload (PStr "rocq lang:en") d2019 d2020 100 token) in
  exists rs,
    snd (search_tweets nat strptime12 three_languages three_pages
           PClient (PStr "tok") (PStr "30day") (PStr "dev") (PStr "rocq")
           (PInt 3) d2019 d2020 (PStr "en") [])
    = LanguageLookup PClient :: Post (wire None) :: map Post rs
    /\ follows nat three_pages wire 0 (wire None) rs.
Proof.
  destruct (proj2 (search_tweets_call_order nat strptime12 three_languages
                     three_pages
                     PClient (PStr "tok") (PStr "30day") (PStr "dev") (PStr "rocq")
                     (PInt 3) d2019 d2020 (PStr "en")) eq_refl)
    as (tok & pl & lb & q & [= <-] & [= <-] & [= <-] & [= <-] & H).
  exact H.
Defined.

Lemma wrapper_call_order_witness :
  let wire (token : option string) :=
    mk_request "https://api.twitter.com/1.1/tweets/search/30day/dev.json"
      "Bearer tok" "application/json"
      (mk_payload (PStr "from:rocq lang:en") d2019 d2020 100 token) in
  exists rs,
    snd (wrapper_premium_user_search nat strptime12 three_languages three_pages
           PClient (PStr "tok") (PStr "30day") (PStr "dev") (PStr "rocq")
           (PInt 3) d2019 d2020 (PStr "en") [])
    = LanguageLookup PClient :: Post (wire None) :: map Post rs
    /\ follows nat three_pages wire 0 (wire None) rs.
Proof.
  destruct (proj2 (wrapper_call_order nat strptime12 three_languages
                     three_pages
                     PClient (PStr "tok") (PStr "30day") (PStr "dev") (PStr "rocq")
                     (PInt 3) d2019 d2020 (PStr "en")) eq_refl)
    as (tok & pl & lb & q & [= <-] & [= <-] & [= <-] & [= <-] & H).
  exact H.
Defined.
